(** * Panfletos RSS generator: a shallow embedding of
    [panfletos_rss_generator.py] and the properties of its parsing and
    rendering functions.

    Text is modelled at two levels, as the script handles it.  The
    parsing code ([parse_pt_date], [parse_duration], the scraper) works
    on Python [str] values, modelled as lists of code points ([pystr]),
    with Python's own character classes: the whitespace of [str.isspace],
    [str.split], [str.strip] and the regex class [\s], and the decimal
    digits of [\d] and [int()], taken from the Unicode 14.0 tables of
    CPython 3.11.  The rendered feed is the byte string written to the
    output file: text reaches the episode records and the document as
    its UTF-8 encoding, a Rocq [string].  The [print] calls only write to
    standard output, which is assumed to accept the text, and are left
    out. *)

From Stdlib Require Import ZArith Bool String Ascii List Lia.
From Stdlib Require Import Numbers.DecimalString.
Import ListNotations.
Open Scope string_scope.
Open Scope Z_scope.

(* ------------------------------------------------------------------ *)
(** ** Python exceptions and a small error monad *)

Inductive py_exc : Type :=
| ValueError
| ModuleNotFoundError        (* an [import] of a package that is not installed *)
| RequestException           (* [requests.get] or [raise_for_status()] raised *)
| OSError                    (* [open(args.output, "w")] failed *)
| UnicodeEncodeError.        (* [f.write] met a lone surrogate *)

Inductive result (A : Type) : Type :=
| Ok : A -> result A
| Err : py_exc -> result A.
Arguments Ok {A} _.
Arguments Err {A} _.

Definition bind {A B} (r : result A) (k : A -> result B) : result B :=
  match r with
  | Ok a => k a
  | Err e => Err e
  end.

Notation "x <- r ;; k" := (bind r (fun x => k))
  (at level 61, r at next level, right associativity).

(* ------------------------------------------------------------------ *)
(** ** Python text *)

(** A [str] as the list of its code points. *)
Abbreviation pystr := (list Z) (only parsing).

(** The [str] of an ASCII literal. *)
Definition of_ascii (s : string) : pystr :=
  map (fun c => Z.of_nat (nat_of_ascii c)) (list_ascii_of_string s).

Definition byte_of (n : Z) : ascii := ascii_of_nat (Z.to_nat n).

(** The UTF-8 encoding of one code point (0 .. 0x10FFFF); a lone
    surrogate gets the three bytes ED A0..BF xx, which no encoding of a
    scalar value contains. *)
Definition encode_cp (c : Z) : string :=
  if c <? 0x80 then String (byte_of c) EmptyString
  else if c <? 0x800 then
    String (byte_of (0xC0 + c / 64)) (String (byte_of (0x80 + c mod 64)) EmptyString)
  else if c <? 0x10000 then
    String (byte_of (0xE0 + c / 4096))
      (String (byte_of (0x80 + (c / 64) mod 64))
         (String (byte_of (0x80 + c mod 64)) EmptyString))
  else
    String (byte_of (0xF0 + c / 262144))
      (String (byte_of (0x80 + (c / 4096) mod 64))
         (String (byte_of (0x80 + (c / 64) mod 64))
            (String (byte_of (0x80 + c mod 64)) EmptyString))).

Fixpoint utf8_encode (s : pystr) : string :=
  match s with
  | [] => EmptyString
  | c :: r => encode_cp c ++ utf8_encode r
  end.

Definition nl : string := String "010"%char EmptyString.

(* ------------------------------------------------------------------ *)
(** ** Characters and [str] methods *)

(** [str.isspace] (CPython's [Py_UNICODE_ISSPACE]), which is also what
    [str.split()], [str.strip()] and the regex class [\s] use: the
    code points of bidirectional class WS, B or S or of category Zs. *)
Definition is_space (c : Z) : bool :=
  ((0x9 <=? c) && (c <=? 0xD)) || ((0x1C <=? c) && (c <=? 0x20))
  || (c =? 0x85) || (c =? 0xA0) || (c =? 0x1680)
  || ((0x2000 <=? c) && (c <=? 0x200A))
  || (c =? 0x2028) || (c =? 0x2029) || (c =? 0x202F) || (c =? 0x205F)
  || (c =? 0x3000).

(** The digit zero of each of the 66 runs of ten decimal digits
    (category Nd) of Unicode 14.0.  The regex class [\d] matches exactly
    these 660 code points, and [int()] reads each as its value. *)
Definition DIGIT_ZEROS : list Z :=
  [0x30; 0x660; 0x6F0; 0x7C0; 0x966; 0x9E6; 0xA66; 0xAE6; 0xB66; 0xBE6;
   0xC66; 0xCE6; 0xD66; 0xDE6; 0xE50; 0xED0; 0xF20; 0x1040; 0x1090; 0x17E0;
   0x1810; 0x1946; 0x19D0; 0x1A80; 0x1A90; 0x1B50; 0x1BB0; 0x1C40; 0x1C50; 0xA620;
   0xA8D0; 0xA900; 0xA9D0; 0xA9F0; 0xAA50; 0xABF0; 0xFF10; 0x104A0; 0x10D30; 0x11066;
   0x110F0; 0x11136; 0x111D0; 0x112F0; 0x11450; 0x114D0; 0x11650; 0x116C0; 0x11730;
   0x118E0; 0x11950; 0x11C50; 0x11D50; 0x11DA0; 0x16A60; 0x16AC0; 0x16B50; 0x1D7CE;
   0x1D7D8; 0x1D7E2; 0x1D7EC; 0x1D7F6; 0x1E140; 0x1E2F0; 0x1E950; 0x1FBF0].

(** [unicodedata.decimal(c)], when defined. *)
Definition decimal (c : Z) : option Z :=
  match find (fun z => (z <=? c) && (c <? z + 10)) DIGIT_ZEROS with
  | Some z => Some (c - z)
  | None => None
  end.

Definition is_digit (c : Z) : bool :=
  match decimal c with Some _ => true | None => false end.

Definition digit_val (c : Z) : Z :=
  match decimal c with Some d => d | None => 0 end.

(** [str.lower] on the ASCII letters.  The script lowers text only to
    compare it with ASCII keys ([PT_MONTHS]) or to search it for
    [(\d+)\s*min], and the full Unicode lowering changes no digit and no
    whitespace character; the only non-ASCII code points it maps to text
    containing ASCII letters are U+0130 (to [i] followed by U+0307) and
    U+212A (to [k]).  Neither can complete a month key (none contains
    [k], and U+0307 is not ASCII) or the word [min] (the [i] is always
    followed by U+0307), so lowering only the ASCII letters gives the
    same lookups and the same matches. *)
Definition lower_char (c : Z) : Z :=
  if (65 <=? c) && (c <=? 90) then c + 32 else c.

Definition str_lower (s : pystr) : pystr := map lower_char s.

Fixpoint lstrip (s : pystr) : pystr :=
  match s with
  | [] => []
  | c :: r => if is_space c then lstrip r else s
  end.

(** [str.strip()]: drop leading and trailing whitespace. *)
Definition strip (s : pystr) : pystr := rev (lstrip (rev (lstrip s))).

(** [s.replace(old, new)] for a one-character [old], as the script
    calls it. *)
Fixpoint str_replace (old : Z) (new : pystr) (s : pystr) : pystr :=
  match s with
  | [] => []
  | c :: r => if c =? old then new ++ str_replace old new r
              else c :: str_replace old new r
  end.

(** [str.split()] with no separator: maximal runs of non-whitespace.
    [split_aux s] returns the token that begins [s] (possibly empty) and
    the tokens after it. *)
Definition cons_tok (w : pystr) (ws : list pystr) : list pystr :=
  match w with
  | [] => ws
  | _ => w :: ws
  end.

Fixpoint split_aux (s : pystr) : pystr * list pystr :=
  match s with
  | [] => ([], [])
  | c :: r =>
      let (w, ws) := split_aux r in
      if is_space c then ([], cons_tok w ws) else (c :: w, ws)
  end.

Definition split_ws (s : pystr) : list pystr :=
  let (w, ws) := split_aux s in cons_tok w ws.

(** [int(tok)] for a token without whitespace: an optional ASCII sign,
    then decimal digits (of any script) where single underscores may
    separate digits. *)
Fixpoint digits_us (s : pystr) (acc : Z) (prev_digit : bool) : option Z :=
  match s with
  | [] => if prev_digit then Some acc else None
  | c :: r =>
      match decimal c with
      | Some d => digits_us r (10 * acc + d) true
      | None =>
          if c =? 95 then (if prev_digit then digits_us r acc false else None)
          else None
      end
  end.

Definition py_int (s : pystr) : result Z :=
  let body :=
    match s with
    | c :: r =>
        if c =? 45 then option_map Z.opp (digits_us r 0 false)
        else if c =? 43 then digits_us r 0 false
        else digits_us s 0 false
    | [] => None
    end in
  match body with
  | Some z => Ok z
  | None => Err ValueError
  end.

(* ------------------------------------------------------------------ *)
(** ** [datetime.datetime] *)

Record datetime : Type := mk_dt {
  year : Z; month : Z; day : Z;
  hour : Z; minute : Z; second : Z; microsecond : Z
}.

Definition is_leap (y : Z) : bool :=
  (Z.modulo y 4 =? 0) && (negb (Z.modulo y 100 =? 0) || (Z.modulo y 400 =? 0)).

Definition days_in_month (y m : Z) : Z :=
  match m with
  | 1 | 3 | 5 | 7 | 8 | 10 | 12 => 31
  | 4 | 6 | 9 | 11 => 30
  | 2 => if is_leap y then 29 else 28
  | _ => 0
  end%Z.

(** The constructor [datetime(year, month, day, hour, minute, second)]
    with its range checks (MINYEAR = 1, MAXYEAR = 9999). *)
Definition new_datetime (y m d hh mi ss : Z) : result datetime :=
  if (1 <=? y)%Z && (y <=? 9999)%Z && (1 <=? m)%Z && (m <=? 12)%Z
     && (1 <=? d)%Z && (d <=? days_in_month y m)%Z
     && (0 <=? hh)%Z && (hh <=? 23)%Z && (0 <=? mi)%Z && (mi <=? 59)%Z
     && (0 <=? ss)%Z && (ss <=? 59)%Z
  then Ok (mk_dt y m d hh mi ss 0)
  else Err ValueError.

(* ------------------------------------------------------------------ *)
(** ** Configuration *)

Definition PROGRAM_ID := "p8339".
Definition PROGRAM_SLUG := "panfletos".
Definition PROGRAM_TITLE := "Panfletos".
Definition PROGRAM_AUTHOR := "Pedro Tadeu".
Definition PROGRAM_DESCRIPTION :=
  "As palavras-chave deste projeto são estas: música-política, canções-poder, "
  ++ "criatividade-resistência, cultura-opressão, talento-censura, poesia-liberdade, "
  ++ "arte-causas. Panfletos foi um programa de Ruben de Carvalho na antiga Telefonia "
  ++ "de Lisboa. Recriado agora por Pedro Tadeu, na Antena 1, trata da relação íntima, "
  ++ "ao longo dos tempos, da arte musical com a vida e a luta dos povos. "
  ++ "Diariamente: uma canção na História.".
Definition PROGRAM_IMAGE := "https://cdn-images.rtp.pt/EPG/radio/imagens/7290_10886_10223.jpg".
Definition PROGRAM_URL := "https://www.rtp.pt/play/" ++ PROGRAM_ID ++ "/" ++ PROGRAM_SLUG.
Definition PROGRAM_CATEGORY := "Music".
Definition PROGRAM_LANGUAGE := "pt".
Definition CHANNEL := "Antena1".
Definition BASE_URL := "https://www.rtp.pt".
Definition FEED_SELF_URL := "https://javiercubre.github.io/panfletos-rss/panfletos.xml".

(** [==] on [str]. *)
Fixpoint pystr_eqb (a b : pystr) : bool :=
  match a, b with
  | [], [] => true
  | x :: a', y :: b' => (x =? y) && pystr_eqb a' b'
  | _, _ => false
  end.

(** The dict [PT_MONTHS], in its insertion order. *)
Definition PT_MONTHS : list (pystr * Z) :=
  [(of_ascii "jan", 1); (of_ascii "fev", 2); (of_ascii "mar", 3); (of_ascii "abr", 4);
   (of_ascii "mai", 5); (of_ascii "jun", 6); (of_ascii "jul", 7); (of_ascii "ago", 8);
   (of_ascii "set", 9); (of_ascii "out", 10); (of_ascii "nov", 11); (of_ascii "dez", 12)].

(** [dict.get(key, default)]. *)
Fixpoint dict_get (d : list (pystr * Z)) (k : pystr) (dflt : Z) : Z :=
  match d with
  | [] => dflt
  | (k', v) :: d' => if pystr_eqb k k' then v else dict_get d' k dflt
  end.

(* ------------------------------------------------------------------ *)
(** ** [parse_pt_date]

    [now] is the value [datetime.now()] returns at the call. *)

Definition parse_pt_date (now : datetime) (date_str : pystr) : result datetime :=
  let date_str := strip (str_replace 46 [] (strip date_str)) in
  let parts := split_ws date_str in
  match parts with
  | [p0; p1; p2] =>
      day <- py_int p0 ;;
      let month := dict_get PT_MONTHS (str_lower p1) 1 in
      year <- py_int p2 ;;
      new_datetime year month day 12 0 0
  | _ => Ok now
  end.

(* ------------------------------------------------------------------ *)
(** ** [parse_duration]: [re.search(r"(\d+)\s*min", s)] *)

(** [s] begins with [p]: what follows it. *)
Fixpoint starts_with (p s : pystr) : option pystr :=
  match p, s with
  | [], _ => Some s
  | x :: p', y :: s' => if x =? y then starts_with p' s' else None
  | _ :: _, [] => None
  end.

(** The maximal run of digits that begins [s], and what follows it. *)
Fixpoint take_digits (s : pystr) : pystr * pystr :=
  match s with
  | [] => ([], [])
  | c :: r =>
      if is_digit c then let (ds, rest) := take_digits r in (c :: ds, rest)
      else ([], s)
  end.

Fixpoint skip_ws (s : pystr) : pystr :=
  match s with
  | [] => []
  | c :: r => if is_space c then skip_ws r else s
  end.

(** A match of [(\d+)\s*min] anchored at the start of [s]; returns
    group 1.  Backtracking never helps: after fewer digits the next
    character is a digit, which is neither whitespace nor [m], and after
    less whitespace the next character is whitespace, not [m]. *)
Definition match_min_at (s : pystr) : option pystr :=
  let (ds, rest) := take_digits s in
  match ds with
  | [] => None
  | _ => match starts_with (of_ascii "min") (skip_ws rest) with
         | Some _ => Some ds
         | None => None
         end
  end.

(** [re.search]: the leftmost starting position that matches. *)
Fixpoint search_min (s : pystr) : option pystr :=
  match match_min_at s with
  | Some ds => Some ds
  | None =>
      match s with
      | [] => None
      | _ :: r => search_min r
      end
  end.

(** [int(ds)] for a string of decimal digits. *)
Fixpoint dec_value_acc (s : pystr) (acc : Z) : Z :=
  match s with
  | [] => acc
  | c :: r => dec_value_acc r (10 * acc + digit_val c)
  end.

Definition dec_value (s : pystr) : Z := dec_value_acc s 0.

Definition parse_duration (dur_str : pystr) : Z :=
  let dur_str := str_lower (strip dur_str) in
  match search_min dur_str with
  | Some ds => dec_value ds * 60
  | None => 0
  end.

(* ------------------------------------------------------------------ *)
(** ** Formatting *)

(** [str(z)] *)
Definition z_str (z : Z) : string := NilEmpty.string_of_int (Z.to_int z).

(** [f"{z:02d}"]: zero padding to width 2 after the sign. *)
Definition pad2 (z : Z) : string :=
  if z <? 0 then z_str z
  else if z <? 10 then "0" ++ z_str z
  else z_str z.

(** [date.toordinal()] as in CPython's [_ymd2ord]. *)
Definition days_before_year (y : Z) : Z :=
  let y' := y - 1 in y' * 365 + y' / 4 - y' / 100 + y' / 400.

Definition days_before_month (y m : Z) : Z :=
  let fix go (k : nat) (acc : Z) :=
    match k with
    | O => acc
    | S k' => go k' (acc + days_in_month y (m - Z.of_nat k))
    end in
  go (Z.to_nat (m - 1)) 0.

Definition toordinal (dt : datetime) : Z :=
  days_before_year (year dt) + days_before_month (year dt) (month dt) + day dt.

(** [dt.weekday()]: Monday is 0; 0001-01-01 (ordinal 1) is a Monday. *)
Definition weekday (dt : datetime) : Z := (toordinal dt + 6) mod 7.

Definition format_rfc822 (dt : datetime) : string :=
  let days := ["Mon"; "Tue"; "Wed"; "Thu"; "Fri"; "Sat"; "Sun"] in
  let months := ["Jan"; "Feb"; "Mar"; "Apr"; "May"; "Jun";
                 "Jul"; "Aug"; "Sep"; "Oct"; "Nov"; "Dec"] in
  nth (Z.to_nat (weekday dt)) days EmptyString ++ ", " ++ pad2 (day dt) ++ " "
  ++ nth (Z.to_nat (month dt - 1)) months EmptyString ++ " "
  ++ z_str (year dt) ++ " " ++ pad2 (hour dt) ++ ":" ++ pad2 (minute dt) ++ ":"
  ++ pad2 (second dt) ++ " +0000".

Definition format_itunes_duration (seconds : Z) : string :=
  let h := seconds / 3600 in
  let m := (seconds mod 3600) / 60 in
  let s := seconds mod 60 in
  if h >? 0 then pad2 h ++ ":" ++ pad2 m ++ ":" ++ pad2 s
  else pad2 m ++ ":" ++ pad2 s.

(** The double-quote character (code 34) as a one-character string. *)

(** [s.replace(old, new)] on the UTF-8 bytes of [s], for a one-character
    ASCII [old], which is how [xml_escape] calls it (an ASCII byte never
    occurs inside the encoding of another character). *)
Fixpoint replace1 (old : ascii) (new : string) (s : string) : string :=
  match s with
  | EmptyString => EmptyString
  | String c r =>
      if Ascii.eqb c old then new ++ replace1 old new r
      else String c (replace1 old new r)
  end.

Definition quot : string := String "034"%char EmptyString.

Definition xml_escape (text : string) : string :=
  replace1 "'"%char "&apos;"
    (replace1 "034"%char "&quot;"
      (replace1 ">"%char "&gt;"
        (replace1 "<"%char "&lt;"
          (replace1 "&"%char "&amp;" text)))).

(* ------------------------------------------------------------------ *)
(** ** Episode records and [generate_rss] *)

(** An episode dict.  [audio_url] is [None] when the key is missing
    ([ep.get("audio_url")] then returns [None]). *)
Record episode : Type := mk_ep {
  title : string;
  date : datetime;
  duration : Z;
  url : string;
  episode_id : string;
  audio_url : option string
}.

(** Python truthiness of [ep.get("audio_url")]. *)
Definition truthy (o : option string) : bool :=
  match o with
  | Some (String _ _) => true
  | _ => false
  end.

Definition channel_head (now : datetime) : list string :=
  [ "<?xml version=" ++ quot ++ "1.0" ++ quot ++ " encoding=" ++ quot ++ "UTF-8" ++ quot ++ "?>";
    "<rss version=" ++ quot ++ "2.0" ++ quot;
    "  xmlns:itunes=" ++ quot ++ "http://www.itunes.com/dtds/podcast-1.0.dtd" ++ quot;
    "  xmlns:atom=" ++ quot ++ "http://www.w3.org/2005/Atom" ++ quot ++ ">";
    "  <channel>";
    "    <title>" ++ xml_escape PROGRAM_TITLE ++ "</title>";
    "    <link>" ++ PROGRAM_URL ++ "</link>";
    "    <description>" ++ xml_escape PROGRAM_DESCRIPTION ++ "</description>";
    "    <language>" ++ PROGRAM_LANGUAGE ++ "</language>";
    "    <copyright>© RTP - Rádio e Televisão de Portugal</copyright>";
    "    <lastBuildDate>" ++ format_rfc822 now ++ "</lastBuildDate>";
    "    <generator>Panfletos RSS Generator</generator>";
    "    <atom:link href=" ++ quot ++ FEED_SELF_URL ++ quot ++ " rel=" ++ quot ++ "self"
      ++ quot ++ " type=" ++ quot ++ "application/rss+xml" ++ quot ++ "/>";
    "    <itunes:author>" ++ xml_escape PROGRAM_AUTHOR ++ "</itunes:author>";
    "    <itunes:summary>" ++ xml_escape PROGRAM_DESCRIPTION ++ "</itunes:summary>";
    "    <itunes:type>episodic</itunes:type>";
    "    <itunes:explicit>false</itunes:explicit>";
    "    <itunes:owner>";
    "      <itunes:name>" ++ xml_escape PROGRAM_AUTHOR ++ "</itunes:name>";
    "    </itunes:owner>";
    "    <itunes:category text=" ++ quot ++ PROGRAM_CATEGORY ++ quot ++ "/>";
    "    <image>";
    "      <url>" ++ PROGRAM_IMAGE ++ "</url>";
    "      <title>" ++ xml_escape PROGRAM_TITLE ++ "</title>";
    "      <link>" ++ PROGRAM_URL ++ "</link>";
    "    </image>";
    "    <itunes:image href=" ++ quot ++ PROGRAM_IMAGE ++ quot ++ "/>" ].

Definition enclosure_line (u : string) : string :=
  "      <enclosure url=" ++ quot ++ xml_escape u ++ quot ++ " length=" ++ quot ++ "0"
  ++ quot ++ " type=" ++ quot ++ "audio/mpeg" ++ quot ++ "/>".

Definition duration_line (d : Z) : string :=
  "      <itunes:duration>" ++ format_itunes_duration d ++ "</itunes:duration>".

Definition guid_line (id : string) : string :=
  "      <guid isPermaLink=" ++ quot ++ "false" ++ quot ++ ">rtp-panfletos-e" ++ id
  ++ "</guid>".

(** The lines one iteration of the [for ep in episodes] loop appends. *)
Definition item_lines (ep : episode) : list string :=
  [ "    <item>";
    "      <title>" ++ xml_escape (title ep) ++ "</title>";
    "      <link>" ++ url ep ++ "</link>";
    guid_line (episode_id ep);
    "      <pubDate>" ++ format_rfc822 (date ep) ++ "</pubDate>";
    "      <description>" ++ xml_escape (title ep) ++ " - " ++ xml_escape PROGRAM_TITLE
      ++ " com " ++ xml_escape PROGRAM_AUTHOR ++ " na " ++ CHANNEL ++ ".</description>" ]
  ++ (match audio_url ep with
      | Some u => if truthy (Some u) then [enclosure_line u] else []
      | None => []
      end)
  ++ (if duration ep >? 0 then [duration_line (duration ep)] else [])
  ++ [ "      <itunes:author>" ++ xml_escape PROGRAM_AUTHOR ++ "</itunes:author>";
       "      <itunes:summary>" ++ xml_escape (title ep)
         ++ " - Panfletos: música-política, canções-poder, criatividade-resistência.</itunes:summary>";
       "    </item>" ].

Definition channel_tail : list string := ["  </channel>"; "</rss>"].

(** The list [lines] at the [return]: the header appends, the loop, the
    closing appends. *)
Definition generate_rss_lines (now : datetime) (episodes : list episode) : list string :=
  fold_left (fun lines ep => app lines (item_lines ep)) episodes (channel_head now)
  ++ channel_tail.

(** [generate_rss]; [now] is the value of [datetime.now()]. *)
Definition generate_rss (now : datetime) (episodes : list episode) : string :=
  String.concat nl (generate_rss_lines now episodes).

(* ------------------------------------------------------------------ *)
(** ** [generate_feed_from_hardcoded_data] *)

Definition hc_url (id : string) : string :=
  BASE_URL ++ "/play/" ++ PROGRAM_ID ++ "/e" ++ id ++ "/" ++ PROGRAM_SLUG.

(** A literal of the hardcoded list: [datetime(y, m, d, 12, 0)] and no
    ["audio_url"] key. *)
Definition hc (t : string) (y m d : Z) (dur : Z) (id : string) : episode :=
  mk_ep t (mk_dt y m d 12 0 0 0) dur (hc_url id) id None.

Definition hardcoded_episodes : list episode :=
  [ hc ("Cara de Espelho e " ++ quot ++ "A Seita" ++ quot) 2026 2 11 420 "908229";
    hc ("Bad Bunny e " ++ quot ++ "DtMF" ++ quot) 2026 2 10 420 "907966";
    hc ("Moonspell e " ++ quot ++ "Desastre" ++ quot) 2026 2 9 420 "907751";
    hc ("Semana de 02 a 06 de Fevereiro de 2026") 2026 2 7 1620 "907740";
    hc ("Carlos Paredes e " ++ quot ++ "Verdes Anos" ++ quot) 2026 2 6 420 "907254";
    hc ("Verdi e o coro dos escravos hebreus") 2026 2 5 420 "907010";
    hc ("Billy Bragg e " ++ quot ++ "City of Heroes" ++ quot) 2026 2 4 420 "906746";
    hc ("Nicki Minaj e " ++ quot ++ "Black Barbies" ++ quot) 2026 2 3 420 "906461";
    hc ("Bruce Springsteen e " ++ quot ++ "Streets of Minneapolis" ++ quot) 2026 2 2 420 "906203";
    hc ("Semana de 26 a 30 de Janeiro de 2026") 2026 1 31 1920 "905765";
    hc ("Dino d'Santiago e " ++ quot ++ "Utopia" ++ quot) 2026 1 30 420 "905712";
    hc ("Pedro Abrunhosa e " ++ quot ++ "Oxalá o meu vestido ainda se lembre de mim" ++ quot) 2026 1 29 420 "905426" ].

Definition generate_feed_from_hardcoded_data (now : datetime) : string :=
  generate_rss now hardcoded_episodes.


(* ------------------------------------------------------------------ *)
(** ** The packages imported inside functions

    [import] raises [ModuleNotFoundError] for a package that is not
    installed.  [requests] and [beautifulsoup4] are the documented
    requirements; [yt-dlp] is not listed among them. *)

Record env : Type := mk_env {
  has_requests : bool;
  has_bs4 : bool;
  has_yt_dlp : bool
}.

(* ------------------------------------------------------------------ *)
(** ** [scrape_episodes_from_html]

    The HTML parser is BeautifulSoup's, not code of this repository: a
    parsed page is given by its [<a>] elements in document order, each
    with its [href] attribute (if any) and the text nodes below it that
    [stripped_strings] walks, character references decoded (an [&nbsp;]
    is U+00A0).  The text is any sequence of code points, so the model
    does not rule out a lone surrogate (which a character reference such
    as [&#xD800;] can produce). *)

Record anchor : Type := mk_anchor {
  a_href : option pystr;
  a_strings : list pystr
}.

Definition ep_prefix : pystr := of_ascii ("/play/" ++ PROGRAM_ID ++ "/e").
Definition ep_suffix : pystr := of_ascii ("/" ++ PROGRAM_SLUG).

(** A match of [/play/p8339/e(\d+)/panfletos] anchored at the start of
    [s]: the literal prefix, the maximal digit run (fewer digits would
    leave a digit where ['/'] is needed), then the suffix; returns
    group 1. *)
Definition ep_match_at (s : pystr) : option pystr :=
  match starts_with ep_prefix s with
  | None => None
  | Some r =>
      let (ds, rest) := take_digits r in
      match ds with
      | [] => None
      | _ => match starts_with ep_suffix rest with
             | Some _ => Some ds
             | None => None
             end
      end
  end.

(** [ep_pattern.search(s)]: group 1 of the leftmost match. *)
Fixpoint ep_search (s : pystr) : option pystr :=
  match ep_match_at s with
  | Some ds => Some ds
  | None =>
      match s with
      | [] => None
      | _ :: r => ep_search r
      end
  end.

(** [soup.find_all("a", href=ep_pattern)] keeps the anchors whose href
    the pattern finds a match in. *)
Definition href_matches (a : anchor) : bool :=
  match a_href a with
  | Some h => match ep_search h with Some _ => true | None => false end
  | None => false
  end.

(** [link.stripped_strings]: each text node with [str.strip()] applied,
    the empty results skipped. *)
Definition stripped_strings (a : anchor) : list pystr :=
  filter (fun t => match t with [] => false | _ => true end) (map strip (a_strings a)).

Definition nth_part (parts : list pystr) (i : nat) : pystr := nth i parts [].

(** One iteration of the loop; [None] is the [continue].  [now] is what
    [datetime.now()] returns if the iteration calls it, which it does at
    most once (inside [parse_pt_date], or for a missing date).  The
    record holds the UTF-8 encoding of its [str] fields. *)
Definition scrape_link (now : datetime) (link : anchor) : result (option episode) :=
  let href := match a_href link with Some h => h | None => [] end in
  match ep_search href with
  | None => Ok None
  | Some episode_id =>
      let title_text := concat (stripped_strings link) in
      let parts := map strip (stripped_strings link) in
      let title := match parts with p :: _ => p | [] => title_text end in
      let date_str := if (1 <? length parts)%nat then nth_part parts 1 else [] in
      let duration_str := if (2 <? length parts)%nat then nth_part parts 2 else [] in
      ep_date <- (match date_str with
                  | [] => Ok now
                  | _ => parse_pt_date now date_str
                  end) ;;
      let duration_secs := match duration_str with
                           | [] => 0
                           | _ => parse_duration duration_str
                           end in
      Ok (Some (mk_ep (utf8_encode title) ep_date duration_secs
                      (BASE_URL ++ utf8_encode href) (utf8_encode episode_id) None))
  end.

(** The loop over the links [find_all] returned, from the [i]-th on;
    [now_at i] is the clock during the [i]-th iteration. *)
Fixpoint scrape_loop (now_at : nat -> datetime) (i : nat) (links : list anchor)
  : result (list episode) :=
  match links with
  | [] => Ok []
  | link :: rest =>
      o <- scrape_link (now_at i) link ;;
      eps <- scrape_loop now_at (S i) rest ;;
      match o with
      | Some ep => Ok (ep :: eps)
      | None => Ok eps
      end
  end.

Definition scrape_episodes_from_html (e : env) (now_at : nat -> datetime) (soup : list anchor)
  : result (list episode) :=
  if has_bs4 e then scrape_loop now_at 0 (filter href_matches soup)
  else Err ModuleNotFoundError.

(* ------------------------------------------------------------------ *)
(** ** Vocabulary of the properties *)

Fixpoint all_chars (p : ascii -> bool) (s : string) : bool :=
  match s with
  | EmptyString => true
  | String c r => p c && all_chars p r
  end.

(** Escaping one character at a time. *)
Definition esc_char (c : ascii) : string :=
  if Ascii.eqb c "&"%char then "&amp;"
  else if Ascii.eqb c "<"%char then "&lt;"
  else if Ascii.eqb c ">"%char then "&gt;"
  else if Ascii.eqb c "034"%char then "&quot;"
  else if Ascii.eqb c "'"%char then "&apos;"
  else String c EmptyString.

Fixpoint escape_chars (s : string) : string :=
  match s with
  | EmptyString => EmptyString
  | String c r => esc_char c ++ escape_chars r
  end.


(** The ASCII digit of value [d]. *)
Definition digit_char (d : Z) : ascii := ascii_of_nat (48 + Z.to_nat d)%nat.

(** The lines of a list that open with [tag]. *)
Definition lines_opening (tag : string) (lines : list string) : list string :=
  filter (fun l => String.prefix tag l) lines.

(** Occurrences of [w] in [s], overlapping ones included. *)
Fixpoint count_sub (w s : string) : nat :=
  match s with
  | EmptyString => 0
  | String _ r => (if String.prefix w s then 1 else 0) + count_sub w r
  end.

Definition not_lt (c : ascii) : bool := negb (Ascii.eqb c "<"%char).

(** The episode ids (UTF-8) of the anchors [find_all] selects, in
    document order. *)
Definition anchor_ids (soup : list anchor) : list string :=
  flat_map (fun a => match a_href a with
                     | Some h => match ep_search h with
                                 | Some id => [utf8_encode id]
                                 | None => []
                                 end
                     | None => []
                     end) soup.

(** A page with two episode links and one other link. *)
Definition sample_soup : list anchor :=
  [mk_anchor (Some (of_ascii "/play/p8339/e908229/panfletos")) [of_ascii "A"];
   mk_anchor (Some (of_ascii "/play/p8339/x")) [of_ascii "B"];
   mk_anchor (Some (of_ascii "/play/p8339/e907966/panfletos?x=1"))
             [of_ascii "C"; of_ascii "10 fev. 2026"]].

(** All packages installed. *)
Definition full_env : env := mk_env true true true.

(* ------------------------------------------------------------------ *)
(** ** [extract_audio_url]

    yt-dlp is not code of this repository: a call of
    [ydl.extract_info(episode_url, download=False)] is given by its
    outcome.  [YdlRaises] is an exception raised inside the [try] (by
    the constructor, the context manager or [extract_info]);
    [YdlInfo None] is a falsy [info] ([None] or an empty dict);
    [YdlInfo (Some o)] is a non-empty dict whose [info.get("url")] is
    [o] (UTF-8).  The [import yt_dlp] comes before the [try]. *)

Inductive ydl_outcome : Type :=
| YdlRaises
| YdlInfo (info : option (option string)).

Definition extract_audio_url (e : env) (outcome : ydl_outcome) : result (option string) :=
  if has_yt_dlp e then
    Ok (match outcome with
        | YdlRaises => None
        | YdlInfo (Some (Some u)) => if truthy (Some u) then Some u else None
        | YdlInfo _ => None
        end)
  else Err ModuleNotFoundError.

(* ------------------------------------------------------------------ *)
(** ** [fetch_episodes_online]

    The HTTP exchange is the [requests] library's: a response is either
    a failure ([requests.get] raised, or [resp.raise_for_status()] did)
    or the parsed page of [resp.text].  [ydl i u] is the outcome of the
    [i]-th extraction (counted from 0), made for the URL [u]. *)

Inductive http_response : Type :=
| HttpFailed
| HttpOk (page : list anchor).

(** The loop [for i, ep in enumerate(episodes): ep["audio_url"] = ...],
    from index [i] on. *)
Fixpoint set_audio_urls (e : env) (ydl : nat -> string -> ydl_outcome) (i : nat)
         (episodes : list episode) : result (list episode) :=
  match episodes with
  | [] => Ok []
  | ep :: rest =>
      u <- extract_audio_url e (ydl i (url ep)) ;;
      rest' <- set_audio_urls e ydl (S i) rest ;;
      Ok (mk_ep (title ep) (date ep) (duration ep) (url ep) (episode_id ep) u :: rest')
  end.

Definition fetch_episodes_online (e : env) (now_at : nat -> datetime) (resp : http_response)
           (ydl : nat -> string -> ydl_outcome) : result (list episode) :=
  if has_requests e then
    match resp with
    | HttpFailed => Err RequestException
    | HttpOk page =>
        episodes <- scrape_episodes_from_html e now_at page ;;
        set_audio_urls e ydl 0 episodes
    end
  else Err ModuleNotFoundError.

(* ------------------------------------------------------------------ *)
(** ** [main]

    [args] is the namespace [parser.parse_args()] returns.
    [can_open p] tells whether [open(p, "w", encoding="utf-8")]
    succeeds (it fails with an [OSError] such as [FileNotFoundError] when
    the directory of [p] does not exist).  [now_at] is the clock during
    the scrape, [t_render] the value [generate_rss] reads. *)






(* ------------------------------------------------------------------ *)
(** ** XML 1.0 well-formedness

    Two automata read the bytes of a document.  [ustep] decodes UTF-8
    (no overlong form, no surrogate, nothing above U+10FFFF) and accepts
    exactly the code points of XML's [Char] production.  [xstep]
    recognises a subset of the XML 1.0 grammar: the declaration
    [<?xml version="1.0" encoding="UTF-8"?>], white space, one root
    element, white space.  Elements have ASCII names, attribute values
    in double quotes, distinct attribute names, character data without
    [<] and [>] (so never [ ]]> ]), and references to the five predefined
    entities only; each end tag names the element it closes.  A document
    both accept is well-formed: the subset only leaves out comments,
    processing instructions, CDATA sections, character references, white
    space around [=] or before the [>] of an end tag, and non-ASCII
    names.  (Namespace prefixes are not checked.) *)






















(* ------------------------------------------------------------------ *)
(** ** More vocabulary of the properties *)

(** What an XML parser makes of the five predefined entities. *)
Fixpoint xml_unescape (s : string) : string :=
  match s with
  | String "&" (String "a" (String "m" (String "p" (String ";" r)))) =>
      String "&" (xml_unescape r)
  | String "&" (String "l" (String "t" (String ";" r))) =>
      String "<" (xml_unescape r)
  | String "&" (String "g" (String "t" (String ";" r))) =>
      String ">" (xml_unescape r)
  | String "&" (String "q" (String "u" (String "o" (String "t" (String ";" r))))) =>
      String "034" (xml_unescape r)
  | String "&" (String "a" (String "p" (String "o" (String "s" (String ";" r))))) =>
      String "'" (xml_unescape r)
  | String c r => String c (xml_unescape r)
  | EmptyString => EmptyString
  end%char.

(** The four reserved characters other than the ampersand. *)
Definition not_markup (c : ascii) : bool :=
  negb (Ascii.eqb c "<"%char || Ascii.eqb c ">"%char
        || Ascii.eqb c "034"%char || Ascii.eqb c "'"%char).

(** A date of the proleptic Gregorian calendar within [datetime]'s
    range. *)
Definition valid_date (dt : datetime) : bool :=
  (1 <=? year dt) && (year dt <=? 9999) && (1 <=? month dt) && (month dt <=? 12)
  && (1 <=? day dt) && (day dt <=? days_in_month (year dt) (month dt)).

(** The timestamps [parse_pt_date] builds: a valid date at 12:00:00. *)
Definition noon_date (dt : datetime) : bool :=
  valid_date dt && (hour dt =? 12) && (minute dt =? 0) && (second dt =? 0)
  && (microsecond dt =? 0).

(** The calendar day after [dt], at the same time of day. *)
Definition next_day (dt : datetime) : datetime :=
  let '(y, m, d) :=
    if day dt <? days_in_month (year dt) (month dt) then (year dt, month dt, day dt + 1)
    else if month dt <? 12 then (year dt, month dt + 1, 1)
    else (year dt + 1, 1, 1) in
  mk_dt y m d (hour dt) (minute dt) (second dt) (microsecond dt).

(** The fields of a record other than [audio_url]. *)
Definition ep_fields (ep : episode) : string * datetime * Z * string * string :=
  (title ep, date ep, duration ep, url ep, episode_id ep).

(** The shape of a record the scraper builds while the clock reads
    [now_at i] during its [i]-th iteration. *)
Definition scraped_record (now_at : nat -> datetime) (ep : episode) : Prop :=
  audio_url ep = None
  /\ (exists href id, url ep = BASE_URL ++ utf8_encode href
        /\ ep_search href = Some id /\ episode_id ep = utf8_encode id
        /\ id <> [] /\ forallb is_digit id = true)
  /\ 0 <= duration ep /\ duration ep mod 60 = 0
  /\ ((exists i, date ep = now_at i) \/ noon_date (date ep) = true).


(* ================================================================== *)
(** * Properties *)

(* ------------------------------------------------------------------ *)
(** ** String lemmas *)

Lemma str_app_assoc (a b c : string) : (a ++ b) ++ c = a ++ (b ++ c).
Proof. induction a as [|x a IH]; simpl; [reflexivity | now rewrite IH]. Qed.


Lemma replace1_app (o : ascii) (n a b : string) :
  replace1 o n (a ++ b) = replace1 o n a ++ replace1 o n b.
Proof.
  induction a as [|c a IH]; simpl; [reflexivity|].
  destruct (Ascii.eqb c o); rewrite IH; [now rewrite str_app_assoc | reflexivity].
Qed.

Lemma prefix_app (a r : string) : String.prefix a (a ++ r) = true.
Proof.
  induction a as [|c a IH]; simpl; [now destruct r|].
  destruct (ascii_dec c c); [exact IH | congruence].
Qed.

Lemma prefix_inv (a s : string) :
  String.prefix a s = true -> exists r, s = a ++ r.
Proof.
  revert s; induction a as [|c a IH]; intros s H; [now exists s|].
  destruct s as [|d s]; simpl in H; [discriminate|].
  destruct (ascii_dec c d) as [->|]; [|discriminate].
  destruct (IH s H) as [r ->]. now exists r.
Qed.

(* ------------------------------------------------------------------ *)
(** ** [xml_escape] *)

Lemma xml_escape_app (a b : string) :
  xml_escape (a ++ b) = xml_escape a ++ xml_escape b.
Proof. unfold xml_escape. now rewrite !replace1_app. Qed.

Lemma xml_escape_one (c : ascii) :
  xml_escape (String c EmptyString) = esc_char c.
Proof.
  unfold esc_char.
  destruct (Ascii.eqb_spec c "&"%char) as [->|N1]; [reflexivity|].
  destruct (Ascii.eqb_spec c "<"%char) as [->|N2]; [reflexivity|].
  destruct (Ascii.eqb_spec c ">"%char) as [->|N3]; [reflexivity|].
  destruct (Ascii.eqb_spec c "034"%char) as [->|N4]; [reflexivity|].
  destruct (Ascii.eqb_spec c "'"%char) as [->|N5]; [reflexivity|].
  unfold xml_escape.
  repeat (simpl; match goal with
                 | |- context [Ascii.eqb c ?d] =>
                     destruct (Ascii.eqb_spec c d); [congruence|]
                 end).
  reflexivity.
Qed.

(** C5: [xml_escape] is the character-by-character escaping of its input:
    the five sequential [str.replace] calls, ampersand first, never touch
    the text an earlier replacement produced, and no character is
    escaped twice; for instance ["A & B < C"] becomes
    ["A &amp; B &lt; C"]. *)
Theorem xml_escape_charwise :
  (forall s, xml_escape s = escape_chars s)
  /\ xml_escape "A & B < C" = "A &amp; B &lt; C".
Proof.
  split; [|reflexivity].
  induction s as [|c r IH]; [reflexivity|].
  change (String c r) with (String c EmptyString ++ r).
  rewrite xml_escape_app, xml_escape_one, IH. reflexivity.
Qed.


(* ------------------------------------------------------------------ *)
(** ** Character classes *)




Lemma digit_val_range (c : Z) : 0 <= digit_val c <= 9.
Proof.
  unfold digit_val, decimal.
  destruct (find _ DIGIT_ZEROS) as [z|] eqn:E; [|lia].
  apply find_some in E as [_ E]. apply Bool.andb_true_iff in E as [E1 E2].
  apply Z.leb_le in E1. apply Z.ltb_lt in E2. lia.
Qed.



Lemma forallb_impl (p q : Z -> bool) (s : pystr) :
  (forall c, p c = true -> q c = true) -> forallb p s = true -> forallb q s = true.
Proof.
  intro H. induction s as [|c s IH]; intro Hs; [reflexivity|].
  simpl in *. apply Bool.andb_true_iff in Hs as [Hc Hs].
  now rewrite (H c Hc), (IH Hs).
Qed.

Lemma forallb_rev (p : Z -> bool) (s : pystr) : forallb p (rev s) = forallb p s.
Proof.
  induction s as [|c s IH]; [reflexivity|].
  simpl. rewrite forallb_app, IH. simpl.
  now rewrite Bool.andb_true_r, Bool.andb_comm.
Qed.

(* ------------------------------------------------------------------ *)
(** ** [strip], [split], [replace] and [int] *)

Lemma lstrip_spec (s : pystr) :
  exists a, forallb is_space a = true /\ s = (a ++ lstrip s)%list.
Proof.
  induction s as [|c s IH]; [now exists []|].
  simpl. destruct (is_space c) eqn:Ec; [|now exists []].
  destruct IH as [a [Ha Hs]]. exists (c :: a). simpl.
  rewrite Ec, Ha. split; [reflexivity|]. now rewrite <- Hs.
Qed.

Lemma strip_spec (s : pystr) :
  exists a b, forallb is_space a = true /\ forallb is_space b = true
    /\ s = (a ++ strip s ++ b)%list.
Proof.
  destruct (lstrip_spec s) as [a [Ha Hs]].
  destruct (lstrip_spec (rev (lstrip s))) as [b [Hb Hr]].
  exists a, (rev b). split; [exact Ha|]. split; [now rewrite forallb_rev|].
  unfold strip. rewrite <- rev_app_distr, <- Hr, rev_involutive. exact Hs.
Qed.

Lemma split_aux_spaces (b : pystr) :
  forallb is_space b = true -> split_aux b = ([], []).
Proof.
  induction b as [|c b IH]; intro Hb; [reflexivity|].
  simpl in Hb. apply Bool.andb_true_iff in Hb as [Hc Hb].
  simpl. rewrite (IH Hb), Hc. reflexivity.
Qed.

Lemma split_aux_app_spaces (x b : pystr) :
  forallb is_space b = true -> split_aux (x ++ b) = split_aux x.
Proof.
  intro Hb. induction x as [|c x IH].
  - exact (split_aux_spaces b Hb).
  - simpl. now rewrite IH.
Qed.

Lemma split_ws_app_spaces (x b : pystr) :
  forallb is_space b = true -> split_ws (x ++ b) = split_ws x.
Proof. intro Hb. unfold split_ws. now rewrite split_aux_app_spaces. Qed.

Lemma split_ws_spaces_app (a x : pystr) :
  forallb is_space a = true -> split_ws (a ++ x) = split_ws x.
Proof.
  induction a as [|c a IH]; intro Ha; [reflexivity|].
  simpl in Ha. apply Bool.andb_true_iff in Ha as [Hc Ha].
  rewrite <- (IH Ha). unfold split_ws. simpl.
  destruct (split_aux (a ++ x)) as [w ws]. now rewrite Hc.
Qed.

Lemma split_ws_strip (x : pystr) : split_ws (strip x) = split_ws x.
Proof.
  destruct (strip_spec x) as [a [b [Ha [Hb Hx]]]].
  rewrite Hx at 2. now rewrite split_ws_spaces_app, split_ws_app_spaces.
Qed.

Lemma str_replace_app (o : Z) (n a b : pystr) :
  str_replace o n (a ++ b) = (str_replace o n a ++ str_replace o n b)%list.
Proof.
  induction a as [|c a IH]; simpl; [reflexivity|].
  destruct (c =? o); rewrite IH; [now rewrite app_assoc | reflexivity].
Qed.

Lemma str_replace_id (o : Z) (n s : pystr) :
  forallb (fun c => negb (c =? o)) s = true -> str_replace o n s = s.
Proof.
  induction s as [|c s IH]; intro Hs; [reflexivity|].
  simpl in Hs. apply Bool.andb_true_iff in Hs as [Hc Hs].
  simpl. destruct (c =? o); [discriminate|]. now rewrite IH.
Qed.

Lemma space_not_dot (c : Z) : is_space c = true -> negb (c =? 46) = true.
Proof. intro H. destruct (Z.eqb_spec c 46) as [->|]; [discriminate H | reflexivity]. Qed.

(** The code's cleaning of a date string splits like the input with its
    periods removed. *)
Lemma cleaned_split (s : pystr) :
  split_ws (strip (str_replace 46 [] (strip s))) = split_ws (str_replace 46 [] s).
Proof.
  rewrite split_ws_strip.
  destruct (strip_spec s) as [a [b [Ha [Hb Hs]]]].
  rewrite Hs at 2. rewrite !str_replace_app.
  rewrite (str_replace_id _ _ a), (str_replace_id _ _ b)
    by (eapply forallb_impl; [exact space_not_dot | assumption]).
  now rewrite split_ws_spaces_app, split_ws_app_spaces.
Qed.











(* ------------------------------------------------------------------ *)
(** ** The [(\d+)\s*min] search *)



Lemma take_digits_spec (u ds rest : pystr) :
  take_digits u = (ds, rest) -> u = (ds ++ rest)%list /\ forallb is_digit ds = true.
Proof.
  revert ds rest; induction u as [|c u IH]; intros ds rest H; simpl in H.
  - now inversion H.
  - destruct (is_digit c) eqn:Ec.
    + destruct (take_digits u) as [ds' rest'] eqn:E. inversion H; subst.
      destruct (IH _ _ eq_refl) as [-> Hd]. simpl. now rewrite Ec, Hd.
    + now inversion H.
Qed.









(* ------------------------------------------------------------------ *)
(** ** [format_itunes_duration] *)

Lemma pad2_two_digits (x : Z) :
  0 <= x < 100 ->
  pad2 x = String (digit_char (x / 10)) (String (digit_char (x mod 10)) EmptyString).
Proof.
  intro Hx. rewrite <- (Z2Nat.id x) by lia.
  assert (Hn : (Z.to_nat x < 100)%nat) by lia.
  generalize (Z.to_nat x) Hn. clear x Hx Hn. intros n Hn.
  do 100 (destruct n as [|n]; [vm_compute; reflexivity|]). lia.
Qed.

Lemma hms_split (h m s : Z) :
  0 <= h -> 0 <= m < 60 -> 0 <= s < 60 ->
  (3600 * h + 60 * m + s) / 3600 = h
  /\ ((3600 * h + 60 * m + s) mod 3600) / 60 = m
  /\ (3600 * h + 60 * m + s) mod 60 = s.
Proof.
  intros Hh Hm Hs.
  assert (E1 : (3600 * h + 60 * m + s) / 3600 = h)
    by (symmetry; apply Z.div_unique with (r := 60 * m + s); lia).
  assert (E2 : (3600 * h + 60 * m + s) mod 3600 = 60 * m + s)
    by (symmetry; apply Z.mod_unique with (q := h); lia).
  assert (E3 : (60 * m + s) / 60 = m)
    by (symmetry; apply Z.div_unique with (r := s); lia).
  assert (E4 : (3600 * h + 60 * m + s) mod 60 = s)
    by (symmetry; apply Z.mod_unique with (q := 60 * h + m); lia).
  rewrite E2, E3. auto.
Qed.

Lemma str_prefix_cons_neq (c d : ascii) (a s : string) :
  c <> d -> String.prefix (String c a) (String d s) = false.
Proof. intro N. simpl. destruct (ascii_dec c d); congruence. Qed.

Lemma item_lines_duration (ep : episode) :
  lines_opening "      <itunes:duration>" (item_lines ep)
  = if 0 <? duration ep then [duration_line (duration ep)] else [].
Proof.
  unfold lines_opening, item_lines. rewrite !filter_app, Z.gtb_ltb.
  assert (Hd : String.prefix "      <itunes:duration>" (duration_line (duration ep)) = true)
    by (unfold duration_line; apply prefix_app).
  revert Hd. generalize (duration_line (duration ep)) as dl. intros dl Hd.
  destruct (0 <? duration ep); destruct (audio_url ep) as [[|c u]|];
    simpl; try rewrite Hd; reflexivity.
Qed.

(** C8: [format_itunes_duration] writes a non-negative count of seconds,
    split into hours, minutes below 60 and seconds below 60, as
    [HH:MM:SS] with each field zero-padded to two digits, and drops the
    hours field when it is zero ([MM:SS]); 420 gives ["07:00"] and 3720
    gives ["01:02:00"].  The item of a record has an [<itunes:duration>]
    line exactly when its duration is greater than 0. *)
Theorem itunes_duration_format :
  (forall h m s, 0 <= h -> 0 <= m < 60 -> 0 <= s < 60 ->
     format_itunes_duration (3600 * h + 60 * m + s)
     = if h =? 0 then pad2 m ++ ":" ++ pad2 s
       else pad2 h ++ ":" ++ pad2 m ++ ":" ++ pad2 s)
  /\ (forall x, 0 <= x < 100 ->
        pad2 x = String (digit_char (x / 10)) (String (digit_char (x mod 10)) EmptyString))
  /\ format_itunes_duration 420 = "07:00"
  /\ format_itunes_duration 3720 = "01:02:00"
  /\ (forall ep, lines_opening "      <itunes:duration>" (item_lines ep)
        = if 0 <? duration ep
          then ["      <itunes:duration>" ++ format_itunes_duration (duration ep)
                ++ "</itunes:duration>"]
          else []).
Proof.
  split; [|split; [exact pad2_two_digits|]].
  - intros h m s Hh Hm Hs. destruct (hms_split h m s Hh Hm Hs) as [E1 [E2 E3]].
    unfold format_itunes_duration. rewrite E1, E2, E3.
    destruct (Z.eqb_spec h 0) as [->|Hn]; [reflexivity|].
    replace (h >? 0) with true by (symmetry; apply Z.gtb_lt; lia). reflexivity.
  - split; [reflexivity|]. split; [reflexivity|].
    exact item_lines_duration.
Qed.

Lemma itunes_duration_format_witness :
  format_itunes_duration (3600 * 1 + 60 * 2 + 5) = "01:02:05"
  /\ pad2 7 = "07".
Proof.
  destruct itunes_duration_format as [Hf [Hp _]]. split.
  - rewrite (Hf 1 2 5) by lia. reflexivity.
  - rewrite (Hp 7) by lia. reflexivity.
Defined.

(* ------------------------------------------------------------------ *)
(** ** Shape of the rendered document *)

Lemma fold_items (eps : list episode) (acc : list string) :
  fold_left (fun lines ep => app lines (item_lines ep)) eps acc
  = app acc (flat_map item_lines eps).
Proof.
  revert acc; induction eps as [|ep eps IH]; intro acc; cbn [fold_left flat_map].
  - now rewrite app_nil_r.
  - rewrite IH. now rewrite (app_assoc acc (item_lines ep)).
Qed.

Lemma generate_rss_lines_eq (now : datetime) (eps : list episode) :
  generate_rss_lines now eps
  = app (channel_head now) (app (flat_map item_lines eps) channel_tail).
Proof. unfold generate_rss_lines. now rewrite fold_items, app_assoc. Qed.

Lemma concat_cons (sep x : string) (l : list string) :
  l <> [] -> String.concat sep (x :: l) = x ++ sep ++ String.concat sep l.
Proof. destruct l; [congruence | reflexivity]. Qed.

Lemma concat_app (sep : string) (l1 l2 : list string) :
  l1 <> [] -> l2 <> [] ->
  String.concat sep (app l1 l2) = String.concat sep l1 ++ sep ++ String.concat sep l2.
Proof.
  intros H1 H2. induction l1 as [|x l1 IH]; [congruence|].
  destruct l1 as [|y l1].
  - simpl app. now rewrite concat_cons.
  - change (app (x :: y :: l1) l2) with (x :: app (y :: l1) l2).
    rewrite concat_cons by (simpl; discriminate).
    rewrite concat_cons by discriminate.
    rewrite IH by discriminate. now rewrite !str_app_assoc.
Qed.

Lemma all_chars_app (p : ascii -> bool) (a b : string) :
  all_chars p (a ++ b) = all_chars p a && all_chars p b.
Proof.
  induction a as [|c a IH]; simpl; [reflexivity|].
  now rewrite IH, Bool.andb_assoc.
Qed.

Lemma z_str_not_lt (z : Z) : all_chars not_lt (z_str z) = true.
Proof.
  unfold z_str, NilEmpty.string_of_int.
  destruct (Z.to_int z) as [u|u]; simpl;
    induction u; simpl; auto.
Qed.

Lemma pad2_not_lt (z : Z) : all_chars not_lt (pad2 z) = true.
Proof.
  unfold pad2. destruct (z <? 0); [apply z_str_not_lt|].
  destruct (z <? 10); [simpl|]; apply z_str_not_lt.
Qed.

Lemma nth_not_lt (i : nat) (l : list string) :
  Forall (fun x => all_chars not_lt x = true) l ->
  all_chars not_lt (nth i l EmptyString) = true.
Proof.
  intro H. destruct (nth_in_or_default i l EmptyString) as [Hi | ->].
  - rewrite Forall_forall in H. now apply H.
  - reflexivity.
Qed.

Lemma format_rfc822_not_lt (dt : datetime) :
  all_chars not_lt (format_rfc822 dt) = true.
Proof.
  unfold format_rfc822. rewrite !all_chars_app.
  rewrite !nth_not_lt by repeat constructor.
  rewrite !pad2_not_lt, z_str_not_lt. reflexivity.
Qed.

(** The document, cut around the only text that depends on the clock:
    the build date. *)
Lemma generate_rss_split (now : datetime) (eps : list episode) :
  generate_rss now eps
  = (String.concat nl (firstn 10 (channel_head now)) ++ nl ++ "    <lastBuildDate>")
    ++ format_rfc822 now
    ++ ("</lastBuildDate>" ++ nl
        ++ String.concat nl (app (skipn 11 (channel_head now))
                                 (app (flat_map item_lines eps) channel_tail))).
Proof.
  unfold generate_rss. rewrite generate_rss_lines_eq.
  change (channel_head now) with
    (app (firstn 10 (channel_head now))
       (("    <lastBuildDate>" ++ format_rfc822 now ++ "</lastBuildDate>")
          :: skipn 11 (channel_head now))) at 1.
  rewrite <- app_assoc.
  rewrite concat_app by (simpl; discriminate).
  rewrite <- app_comm_cons.
  rewrite concat_cons by (destruct (flat_map item_lines eps); simpl; discriminate).
  rewrite !str_app_assoc. reflexivity.
Qed.

(** Counting an occurrence of a [<]-tag across a concatenation. *)
Lemma prefix_app_long (w u z : string) :
  (String.length w <= String.length u)%nat ->
  String.prefix w (u ++ z) = String.prefix w u.
Proof.
  revert u; induction w as [|c w IH]; intros u Hl.
  - destruct u, z; reflexivity.
  - destruct u as [|d u]; simpl in Hl; [lia|]. simpl.
    destruct (ascii_dec c d); [apply IH; lia | reflexivity].
Qed.

Lemma count_sub_not_lt (w x z : string) :
  all_chars not_lt x = true ->
  count_sub (String "<" w) (x ++ z) = count_sub (String "<" w) z.
Proof.
  intro Hx. induction x as [|c x IH]; [reflexivity|].
  simpl in Hx. apply Bool.andb_true_iff in Hx as [Hc Hx].
  change (String c x ++ z) with (String c (x ++ z)). cbn [count_sub].
  rewrite IH by exact Hx.
  unfold not_lt in Hc. destruct (Ascii.eqb_spec c "<"%char); [discriminate|].
  rewrite str_prefix_cons_neq by congruence. reflexivity.
Qed.

(** No [<] of [a] lies so close to its end that an occurrence of a
    [<]-tag of length [n] could run past it. *)
Fixpoint lt_room (n : nat) (a : string) : bool :=
  match a with
  | EmptyString => true
  | String c r => (not_lt c || (n <=? String.length a)%nat) && lt_room n r
  end.

Lemma count_sub_app (w a z : string) :
  lt_room (S (String.length w)) a = true ->
  count_sub (String "<" w) (a ++ z)
  = (count_sub (String "<" w) a + count_sub (String "<" w) z)%nat.
Proof.
  intro Ha. induction a as [|c a IH]; [reflexivity|].
  simpl in Ha. apply Bool.andb_true_iff in Ha as [Hc Ha].
  change (String c a ++ z) with (String c (a ++ z)).
  cbn [count_sub]. rewrite IH by exact Ha. rewrite Nat.add_assoc. f_equal. f_equal.
  apply Bool.orb_true_iff in Hc as [Hc|Hc].
  - unfold not_lt in Hc. destruct (Ascii.eqb_spec c "<"%char); [discriminate|].
    rewrite !str_prefix_cons_neq by congruence. reflexivity.
  - apply Nat.leb_le in Hc.
    change (String c (a ++ z)) with (String c a ++ z).
    rewrite prefix_app_long by (simpl; lia). reflexivity.
Qed.

(** The number of occurrences of a [<]-tag in the document is the one of
    the two clock-independent parts. *)
Lemma count_tag_generate_rss (w : string) (now : datetime) (eps : list episode) :
  lt_room (S (String.length w))
    (String.concat nl (firstn 10 (channel_head now)) ++ nl ++ "    <lastBuildDate>") = true ->
  count_sub (String "<" w) (generate_rss now eps)
  = (count_sub (String "<" w)
       (String.concat nl (firstn 10 (channel_head now)) ++ nl ++ "    <lastBuildDate>")
     + count_sub (String "<" w)
         ("</lastBuildDate>" ++ nl
          ++ String.concat nl (app (skipn 11 (channel_head now))
                                   (app (flat_map item_lines eps) channel_tail))))%nat.
Proof.
  intro Hr. rewrite generate_rss_split, count_sub_app by exact Hr.
  now rewrite (count_sub_not_lt w (format_rfc822 now)) by apply format_rfc822_not_lt.
Qed.

Lemma item_lines_item_open (ep : episode) :
  filter (String.eqb "    <item>") (item_lines ep) = ["    <item>"].
Proof.
  unfold item_lines. rewrite !filter_app.
  unfold duration_line.
  destruct (duration ep >? 0); destruct (audio_url ep) as [[|c u]|];
    simpl; reflexivity.
Qed.

Lemma item_lines_guid (ep : episode) :
  lines_opening "      <guid" (item_lines ep) = [guid_line (episode_id ep)].
Proof.
  unfold lines_opening, item_lines. rewrite !filter_app.
  assert (Hg : String.prefix "      <guid" (guid_line (episode_id ep)) = true)
    by (unfold guid_line; simpl; destruct (episode_id ep); reflexivity).
  revert Hg. generalize (guid_line (episode_id ep)) as gl. intros gl Hg.
  unfold duration_line.
  destruct (duration ep >? 0); destruct (audio_url ep) as [[|c u]|];
    simpl; rewrite Hg; reflexivity.
Qed.

Lemma item_lines_enclosure (ep : episode) :
  lines_opening "      <enclosure" (item_lines ep)
  = match audio_url ep with
    | Some (String c u) => [enclosure_line (String c u)]
    | _ => []
    end.
Proof.
  unfold lines_opening, item_lines. rewrite !filter_app.
  unfold duration_line.
  destruct (audio_url ep) as [[|c u]|]; simpl truthy; cbn iota.
  - destruct (duration ep >? 0); simpl; reflexivity.
  - assert (He : String.prefix "      <enclosure" (enclosure_line (String c u)) = true)
      by (unfold enclosure_line; simpl; destruct (xml_escape (String c u)); reflexivity).
    revert He. generalize (enclosure_line (String c u)) as el. intros el He.
    destruct (duration ep >? 0); simpl; rewrite He; reflexivity.
  - destruct (duration ep >? 0); simpl; reflexivity.
Qed.

Lemma channel_head_no_item (now : datetime) :
  filter (String.eqb "    <item>") (channel_head now) = [].
Proof. simpl. reflexivity. Qed.

Lemma channel_head_no_guid (now : datetime) :
  lines_opening "      <guid" (channel_head now) = [].
Proof. simpl. reflexivity. Qed.

Lemma filter_flat_map_items (f : string -> bool) (g : episode -> list string)
      (eps : list episode) :
  (forall ep, filter f (item_lines ep) = g ep) ->
  filter f (flat_map item_lines eps) = flat_map g eps.
Proof.
  intro H. induction eps as [|ep eps IH]; [reflexivity|].
  cbn [flat_map]. now rewrite filter_app, H, IH.
Qed.

(** C9: [generate_rss] renders the header, then one item block per record in
    the order of the input list (the lines of the loop iterations, in
    turn), then the closing tags.  Hence the document has one
    [<item>] line per record, and its [<guid>] lines are, in the input
    order, [rtp-panfletos-e] followed by the record's episode id, marked
    [isPermaLink="false"].  The hardcoded list has 12 records, each with a
    non-empty episode id, and the feed rendered from it contains
    [<item>] exactly 12 times, whatever the build time. *)
Theorem generate_rss_items_in_order :
  (forall now eps,
     generate_rss_lines now eps
     = app (channel_head now) (app (flat_map item_lines eps) channel_tail)
     /\ length (filter (String.eqb "    <item>") (generate_rss_lines now eps)) = length eps
     /\ lines_opening "      <guid" (generate_rss_lines now eps)
        = map (fun ep => "      <guid isPermaLink=" ++ quot ++ "false" ++ quot
                         ++ ">rtp-panfletos-e" ++ episode_id ep ++ "</guid>") eps)
  /\ length hardcoded_episodes = 12%nat
  /\ Forall (fun ep => episode_id ep <> EmptyString) hardcoded_episodes
  /\ (forall now, count_sub "<item>" (generate_feed_from_hardcoded_data now) = 12%nat).
Proof.
  split; [|split; [reflexivity|split]].
  - intros now eps. rewrite generate_rss_lines_eq.
    split; [reflexivity|split].
    + rewrite !filter_app, channel_head_no_item.
      rewrite (filter_flat_map_items _ (fun _ => ["    <item>"]))
        by exact item_lines_item_open.
      simpl. rewrite app_nil_r.
      induction eps as [|ep eps IH]; [reflexivity|]. simpl. now rewrite IH.
    + unfold lines_opening. rewrite !filter_app.
      fold (lines_opening "      <guid" (channel_head now)).
      rewrite channel_head_no_guid.
      rewrite (filter_flat_map_items _ (fun ep => [guid_line (episode_id ep)]))
        by exact item_lines_guid.
      simpl. rewrite app_nil_r.
      induction eps as [|ep eps IH]; [reflexivity|]. simpl. now rewrite IH.
  - repeat constructor; discriminate.
  - intro now. unfold generate_feed_from_hardcoded_data.
    rewrite count_tag_generate_rss by (vm_compute; reflexivity).
    vm_compute. reflexivity.
Qed.

(** C6: The item of a record whose [audio_url] is missing, [None] or the empty
    string (all falsy for [if audio_url:]) has no [<enclosure>] line; the
    item of a record whose [audio_url] is a non-empty string [u] has
    exactly one, with url [xml_escape u], length ["0"] and type
    ["audio/mpeg"]. *)
Theorem enclosure_iff_audio_url :
  forall ep,
    (audio_url ep = None \/ audio_url ep = Some EmptyString ->
       lines_opening "      <enclosure" (item_lines ep) = [])
    /\ (forall u, audio_url ep = Some u -> u <> EmptyString ->
          lines_opening "      <enclosure" (item_lines ep)
          = ["      <enclosure url=" ++ quot ++ xml_escape u ++ quot ++ " length="
             ++ quot ++ "0" ++ quot ++ " type=" ++ quot ++ "audio/mpeg" ++ quot ++ "/>"]).
Proof.
  intro ep. rewrite item_lines_enclosure. split.
  - intros [-> | ->]; reflexivity.
  - intros u -> Hu. destruct u as [|c u]; [congruence|]. reflexivity.
Qed.

Lemma enclosure_iff_audio_url_witness :
  lines_opening "      <enclosure"
    (item_lines (mk_ep "T" (mk_dt 2026 2 11 12 0 0 0) 420 (hc_url "908229") "908229"
                       (Some "https://x/a.mp3?a=1&b=2")))
  = ["      <enclosure url=" ++ quot ++ "https://x/a.mp3?a=1&amp;b=2" ++ quot ++ " length="
     ++ quot ++ "0" ++ quot ++ " type=" ++ quot ++ "audio/mpeg" ++ quot ++ "/>"].
Proof.
  rewrite (proj2 (enclosure_iff_audio_url
                    (mk_ep "T" (mk_dt 2026 2 11 12 0 0 0) 420 (hc_url "908229") "908229"
                           (Some "https://x/a.mp3?a=1&b=2")))
                 "https://x/a.mp3?a=1&b=2" eq_refl)
    by discriminate.
  reflexivity.
Defined.

(** C10: The URL-valued fields are written as they are, without [xml_escape]:
    the channel [<link>], the [atom:link] href, the image [<url>] and
    [<link>], the [itunes:image] href, and every item's [<link>] (the
    record's url, character for character).  The enclosure url of an item
    is the only URL that goes through [xml_escape]. *)
Theorem url_fields_verbatim :
  (forall now,
     In ("    <link>" ++ PROGRAM_URL ++ "</link>") (channel_head now)
     /\ In ("    <atom:link href=" ++ quot ++ FEED_SELF_URL ++ quot ++ " rel=" ++ quot ++ "self"
            ++ quot ++ " type=" ++ quot ++ "application/rss+xml" ++ quot ++ "/>")
           (channel_head now)
     /\ In ("      <url>" ++ PROGRAM_IMAGE ++ "</url>") (channel_head now)
     /\ In ("      <link>" ++ PROGRAM_URL ++ "</link>") (channel_head now)
     /\ In ("    <itunes:image href=" ++ quot ++ PROGRAM_IMAGE ++ quot ++ "/>") (channel_head now))
  /\ (forall ep, nth 2 (item_lines ep) EmptyString = "      <link>" ++ url ep ++ "</link>")
  /\ (forall ep, lines_opening "      <enclosure" (item_lines ep)
                 = match audio_url ep with
                   | Some (String c u) =>
                       ["      <enclosure url=" ++ quot ++ xml_escape (String c u) ++ quot
                        ++ " length=" ++ quot ++ "0" ++ quot ++ " type=" ++ quot
                        ++ "audio/mpeg" ++ quot ++ "/>"]
                   | _ => []
                   end).
Proof.
  split; [|split].
  - intro now. unfold channel_head. repeat split; simpl; tauto.
  - intro ep. reflexivity.
  - exact item_lines_enclosure.
Qed.


(* ------------------------------------------------------------------ *)
(** ** Scraping *)

Lemma scrape_link_match (now : datetime) (a : anchor) (o : option episode) :
  href_matches a = true -> scrape_link now a = Ok o ->
  exists ep, o = Some ep /\ anchor_ids [a] = [episode_id ep].
Proof.
  unfold href_matches, scrape_link, anchor_ids. simpl flat_map.
  destruct (a_href a) as [h|]; [|discriminate].
  destruct (ep_search h) as [id|]; [|discriminate]. intros _.
  match goal with |- bind ?r _ = Ok o -> _ => destruct r as [dt|e] end;
    simpl; intro H; inversion H; subst.
  eexists; split; reflexivity.
Qed.

Lemma anchor_ids_cons (a : anchor) (l : list anchor) :
  anchor_ids (a :: l) = app (anchor_ids [a]) (anchor_ids l).
Proof. unfold anchor_ids. simpl. now rewrite app_nil_r. Qed.

Lemma scrape_loop_ids (now_at : nat -> datetime) (i : nat) (links : list anchor)
      (eps : list episode) :
  Forall (fun a => href_matches a = true) links ->
  scrape_loop now_at i links = Ok eps -> map episode_id eps = anchor_ids links.
Proof.
  revert i eps; induction links as [|a links IH]; intros i eps Hf H; simpl in H.
  - inversion H; reflexivity.
  - inversion Hf as [|? ? Ha Hf']; subst.
    destruct (scrape_link (now_at i) a) as [o|e] eqn:E; [|discriminate]. simpl in H.
    destruct (scrape_loop now_at (S i) links) as [eps'|e] eqn:E'; [|discriminate].
    simpl in H.
    destruct (scrape_link_match _ a o Ha E) as [ep [-> Hid]].
    inversion H; subst. cbn [map].
    rewrite anchor_ids_cons, Hid, (IH (S i) eps' Hf' E'). reflexivity.
Qed.

Lemma anchor_ids_filter (soup : list anchor) :
  anchor_ids (filter href_matches soup) = anchor_ids soup.
Proof.
  induction soup as [|a soup IH]; [reflexivity|].
  rewrite anchor_ids_cons. simpl filter. destruct (href_matches a) eqn:Ha.
  - now rewrite anchor_ids_cons, IH.
  - rewrite IH. unfold href_matches in Ha. unfold anchor_ids at 2. simpl.
    destruct (a_href a) as [h|]; [destruct (ep_search h); [discriminate|]|];
      reflexivity.
Qed.

Lemma filter_matches (soup : list anchor) :
  Forall (fun a => href_matches a = true) (filter href_matches soup).
Proof. apply Forall_forall; intros a Ha; now apply filter_In in Ha as [_ Ha]. Qed.

Lemma scrape_ids (e : env) (now_at : nat -> datetime) (soup : list anchor)
      (eps : list episode) :
  scrape_episodes_from_html e now_at soup = Ok eps -> map episode_id eps = anchor_ids soup.
Proof.
  unfold scrape_episodes_from_html. destruct (has_bs4 e); [|discriminate]. intro H.
  rewrite (scrape_loop_ids now_at 0 _ eps (filter_matches soup) H).
  apply anchor_ids_filter.
Qed.

Lemma scrape_needs_bs4 (e : env) (now_at : nat -> datetime) (soup : list anchor)
      (eps : list episode) :
  scrape_episodes_from_html e now_at soup = Ok eps -> has_bs4 e = true.
Proof. unfold scrape_episodes_from_html. now destruct (has_bs4 e). Qed.

(** C4: The hardcoded list has pairwise distinct episode ids.  Scraping
    (when it returns) gives one record per anchor whose href the episode
    pattern finds a match in, in document order, each with the id of its
    own href (the UTF-8 encoding of the digits [\d+] matched, which may
    be any Unicode decimal digits); the records are not deduplicated, so
    the ids are pairwise distinct exactly when the matching anchors link
    distinct episodes. *)
Theorem episode_ids_per_anchor :
  NoDup (map episode_id hardcoded_episodes)
  /\ (forall e now_at soup eps,
        scrape_episodes_from_html e now_at soup = Ok eps ->
        map episode_id eps = anchor_ids soup).
Proof.
  split.
  - repeat constructor; simpl; intuition discriminate.
  - exact scrape_ids.
Qed.

(* ------------------------------------------------------------------ *)
(** ** [parse_pt_date] *)









(* ------------------------------------------------------------------ *)
(** ** Dates and durations *)

Lemma new_datetime_noon (y m d : Z) (dt : datetime) :
  new_datetime y m d 12 0 0 = Ok dt -> noon_date dt = true.
Proof.
  unfold new_datetime.
  destruct ((1 <=? y) && (y <=? 9999) && (1 <=? m) && (m <=? 12) && (1 <=? d)
            && (d <=? days_in_month y m) && (0 <=? 12) && (12 <=? 23) && (0 <=? 0)
            && (0 <=? 59) && (0 <=? 0) && (0 <=? 59)) eqn:E; [|discriminate].
  intro H. inversion H; subst. clear H.
  unfold noon_date, valid_date. cbn [year month day hour minute second microsecond].
  rewrite !Bool.andb_true_r in E. simpl Z.eqb. rewrite !Bool.andb_true_r. exact E.
Qed.

Lemma parse_pt_date_now_or_noon (now : datetime) (s : pystr) (dt : datetime) :
  parse_pt_date now s = Ok dt -> dt = now \/ noon_date dt = true.
Proof.
  unfold parse_pt_date. cbv zeta.
  destruct (split_ws _) as [|p0 [|p1 [|p2 [|p3 ps]]]];
    try (intro H; inversion H; now left).
  destruct (py_int p0) as [dd|e]; [|discriminate]. cbn [bind].
  destruct (py_int p2) as [yy|e]; [|discriminate]. cbn [bind].
  intro H. right. exact (new_datetime_noon _ _ _ _ H).
Qed.

(** Every timestamp [parse_pt_date] returns is either the current time
    or a valid calendar date at exactly 12:00:00 (no seconds, no
    microseconds); in particular its month is always one of 1..12. *)
Theorem parse_pt_date_result_shape (now : datetime) (s : pystr) (dt : datetime)
  (H : parse_pt_date now s = Ok dt) :
  dt = now \/ noon_date dt = true.
Proof. exact (parse_pt_date_now_or_noon now s dt H). Qed.

(** [parse_pt_date] only sees the tokens of its input, split at Unicode
    whitespace, once every period is deleted: two inputs with the same
    such tokens give the same result (so ["1.1 fev 2026"] reads as day
    11, and runs of whitespace, trailing periods and surrounding blanks
    do not matter). *)
Theorem parse_pt_date_tokens (now : datetime) (s t : pystr)
  (H : split_ws (str_replace 46 [] s) = split_ws (str_replace 46 [] t)) :
  parse_pt_date now s = parse_pt_date now t.
Proof. unfold parse_pt_date. cbv zeta. now rewrite !cleaned_split, H. Qed.

Lemma dec_value_acc_nonneg (s : pystr) (acc : Z) :
  0 <= acc -> 0 <= dec_value_acc s acc.
Proof.
  revert acc; induction s as [|c s IH]; intros acc Ha; [exact Ha|].
  cbn [dec_value_acc]. apply IH. pose proof (digit_val_range c). lia.
Qed.

Lemma parse_duration_minutes (s : pystr) :
  0 <= parse_duration s /\ parse_duration s mod 60 = 0.
Proof.
  unfold parse_duration. destruct (search_min _) as [ds|]; [|split; reflexivity].
  assert (Hd := dec_value_acc_nonneg ds 0 (Z.le_refl 0)). unfold dec_value.
  split; [lia|]. apply Z.mod_mul. discriminate.
Qed.


(* ------------------------------------------------------------------ *)
(** ** The scraper's records *)

Lemma ep_match_at_digits (s id : pystr) :
  ep_match_at s = Some id -> id <> [] /\ forallb is_digit id = true.
Proof.
  unfold ep_match_at. destruct (starts_with ep_prefix s); [|discriminate].
  destruct (take_digits _) as [ds rest] eqn:E.
  apply take_digits_spec in E as [_ Hd].
  destruct ds as [|c ds]; [discriminate|].
  destruct (starts_with ep_suffix rest); [|discriminate].
  intro H. inversion H; subst. split; [discriminate | exact Hd].
Qed.

Lemma ep_search_digits (s id : pystr) :
  ep_search s = Some id -> id <> [] /\ forallb is_digit id = true.
Proof.
  induction s as [|c s IH]; intro H.
  - cbn [ep_search] in H. destruct (ep_match_at []) eqn:E; [|discriminate].
    inversion H; subst. exact (ep_match_at_digits _ _ E).
  - cbn [ep_search] in H. destruct (ep_match_at (c :: s)) eqn:E.
    + inversion H; subst. exact (ep_match_at_digits _ _ E).
    + exact (IH H).
Qed.

Lemma scrape_link_shape (now_at : nat -> datetime) (i : nat) (a : anchor) (ep : episode) :
  scrape_link (now_at i) a = Ok (Some ep) -> scraped_record now_at ep.
Proof.
  unfold scrape_link.
  set (href := match a_href a with Some h => h | None => [] end).
  destruct (ep_search href) as [id|] eqn:Eh; [|discriminate].
  set (date_str := if (1 <? length (map strip (stripped_strings a)))%nat
                   then nth_part (map strip (stripped_strings a)) 1 else []).
  set (dur_str := if (2 <? length (map strip (stripped_strings a)))%nat
                  then nth_part (map strip (stripped_strings a)) 2 else []).
  destruct (match date_str with [] => Ok (now_at i) | _ => parse_pt_date (now_at i) date_str end)
    as [dt|e] eqn:Ed; [|discriminate].
  cbn [bind]. intro H. inversion H; subst; clear H.
  destruct (ep_search_digits _ _ Eh) as [Hne Hdig].
  unfold scraped_record; cbn [audio_url url episode_id duration date].
  split; [reflexivity|].
  split; [exists href, id; repeat split; assumption|].
  assert (Hdur : 0 <= match dur_str with [] => 0 | _ => parse_duration dur_str end
                 /\ (match dur_str with [] => 0 | _ => parse_duration dur_str end)
                    mod 60 = 0)
    by (destruct dur_str; [split; reflexivity | apply parse_duration_minutes]).
  destruct Hdur as [Hd1 Hd2]. split; [exact Hd1|]. split; [exact Hd2|].
  destruct date_str as [|c r].
  - inversion Ed. left. now exists i.
  - destruct (parse_pt_date_now_or_noon _ _ _ Ed) as [->|N]; [left; now exists i | now right].
Qed.

Lemma scrape_loop_shape (now_at : nat -> datetime) (i : nat) (links : list anchor)
      (eps : list episode) :
  scrape_loop now_at i links = Ok eps -> Forall (scraped_record now_at) eps.
Proof.
  revert i eps; induction links as [|a links IH]; intros i eps H; simpl in H.
  - inversion H. constructor.
  - destruct (scrape_link (now_at i) a) as [o|e] eqn:E; [|discriminate]. simpl in H.
    destruct (scrape_loop now_at (S i) links) as [eps'|e] eqn:E'; [|discriminate].
    simpl in H. specialize (IH (S i) eps' E').
    destruct o as [ep|]; inversion H; subst; [|exact IH].
    constructor; [exact (scrape_link_shape _ _ _ _ E) | exact IH].
Qed.

(** Every record the scraper returns has no audio URL yet, a url made of
    [BASE_URL] followed by an href in which the episode pattern finds the
    record's id, a non-empty episode id of decimal digits, a duration
    that is a non-negative whole number of minutes, and a date that is
    either the clock's reading during one of the iterations or a valid
    date at 12:00:00. *)
Theorem scrape_records_shape (e : env) (now_at : nat -> datetime) (soup : list anchor)
  (eps : list episode) (H : scrape_episodes_from_html e now_at soup = Ok eps) :
  Forall (scraped_record now_at) eps.
Proof.
  unfold scrape_episodes_from_html in H. destruct (has_bs4 e); [|discriminate].
  exact (scrape_loop_shape now_at 0 _ eps H).
Qed.


(* ------------------------------------------------------------------ *)
(** ** Well-formedness of the document *)

Lemma xml_escape_eq (s : string) : xml_escape s = escape_chars s.
Proof.
  induction s as [|c r IH]; [reflexivity|].
  change (String c r) with (String c EmptyString ++ r).
  rewrite xml_escape_app, xml_escape_one, IH. reflexivity.
Qed.

































(* ------------------------------------------------------------------ *)
(** ** Audio URLs, the online path and [main] *)

(** [extract_audio_url] raises [ModuleNotFoundError] when yt-dlp is not
    installed ([import yt_dlp] is outside the [try]).  Otherwise it
    returns a URL exactly when yt-dlp answered with an info dict whose
    ["url"] is a non-empty string, and then returns that string; an
    exception inside the [try], a falsy info or a missing or empty
    ["url"] all give [None].  It never returns the empty string. *)
Theorem extract_audio_url_some :
  (forall e o u,
     extract_audio_url e o = Ok (Some u)
     <-> has_yt_dlp e = true /\ o = YdlInfo (Some (Some u)) /\ u <> EmptyString)
  /\ (forall e o, has_yt_dlp e = false -> extract_audio_url e o = Err ModuleNotFoundError).
Proof.
  split.
  - intros e o u. unfold extract_audio_url.
    destruct (has_yt_dlp e); [|split; [discriminate | intros [H _]; discriminate H]].
    destruct o as [|[[v|]|]]; split.
    + discriminate.
    + intros [_ [H _]]; discriminate H.
    + destruct v as [|c v]; simpl; intro H; inversion H; subst.
      repeat split; discriminate.
    + intros [_ [H Hu]]. inversion H; subst. destruct u as [|c u]; [congruence | reflexivity].
    + discriminate.
    + intros [_ [H _]]; discriminate H.
    + discriminate.
    + intros [_ [H _]]; discriminate H.
  - intros e o H. unfold extract_audio_url. now rewrite H.
Qed.

Lemma extract_audio_url_nonempty (e : env) (o : ydl_outcome) (u : string) :
  extract_audio_url e o = Ok (Some u) -> u <> EmptyString.
Proof.
  unfold extract_audio_url. destruct (has_yt_dlp e); [|discriminate].
  destruct o as [|[[[|c v]|]|]]; simpl; intro H; inversion H; discriminate.
Qed.

Lemma extract_audio_url_err (e : env) (o : ydl_outcome) (x : py_exc) :
  extract_audio_url e o = Err x -> has_yt_dlp e = false /\ x = ModuleNotFoundError.
Proof.
  unfold extract_audio_url. destruct (has_yt_dlp e); intro H; inversion H; now split.
Qed.

Lemma set_audio_urls_ok (e : env) (ydl : nat -> string -> ydl_outcome) (i : nat)
      (eps eps' : list episode) :
  set_audio_urls e ydl i eps = Ok eps' ->
  map ep_fields eps' = map ep_fields eps
  /\ Forall (fun ep => forall u, audio_url ep = Some u -> u <> EmptyString) eps'.
Proof.
  revert i eps'; induction eps as [|ep eps IH]; intros i eps' H; simpl in H.
  - inversion H; subst. split; [reflexivity | constructor].
  - destruct (extract_audio_url e (ydl i (url ep))) as [o|x] eqn:Eo; [|discriminate].
    cbn [bind] in H.
    destruct (set_audio_urls e ydl (S i) eps) as [r|x] eqn:Er; [|discriminate].
    cbn [bind] in H. inversion H; subst; clear H.
    destruct (IH (S i) r Er) as [H1 H2].
    split; [cbn [map]; now rewrite H1|].
    constructor; [|exact H2].
    cbn [audio_url]. intros u Hu. subst o. exact (extract_audio_url_nonempty _ _ _ Eo).
Qed.

Lemma set_audio_urls_no_yt_dlp (e : env) (ydl : nat -> string -> ydl_outcome) (i : nat)
      (eps : list episode) :
  has_yt_dlp e = false -> eps <> [] -> set_audio_urls e ydl i eps = Err ModuleNotFoundError.
Proof.
  intros H N. destruct eps as [|ep eps]; [congruence|].
  simpl. unfold extract_audio_url at 1. rewrite H. reflexivity.
Qed.

Lemma enclosure_of_nonempty (ep : episode) :
  (forall u, audio_url ep = Some u -> u <> EmptyString) ->
  lines_opening "      <enclosure" (item_lines ep)
  = match audio_url ep with Some u => [enclosure_line u] | None => [] end.
Proof.
  intro H. rewrite item_lines_enclosure.
  destruct (audio_url ep) as [[|c u]|]; [|reflexivity|reflexivity].
  exfalso. exact (H EmptyString eq_refl eq_refl).
Qed.

(** When [fetch_episodes_online] returns, [requests] and
    [beautifulsoup4] are installed, the page was fetched and scraped
    without an exception, and the records are the scraped ones in the
    same order, with the same title, date, duration, url and episode id,
    one per matching link; every record whose [audio_url] is set gets
    exactly one [<enclosure>] for it in the feed.  When the scrape
    returns records but yt-dlp is not installed, it raises
    [ModuleNotFoundError] after the scrape. *)
Theorem fetch_episodes_online_records :
  (forall e now_at resp ydl eps,
     fetch_episodes_online e now_at resp ydl = Ok eps ->
     exists page eps0,
       has_requests e = true /\ has_bs4 e = true
       /\ resp = HttpOk page /\ scrape_episodes_from_html e now_at page = Ok eps0
       /\ map ep_fields eps = map ep_fields eps0
       /\ map episode_id eps = anchor_ids page
       /\ Forall (fun ep => lines_opening "      <enclosure" (item_lines ep)
                            = match audio_url ep with
                              | Some u => [enclosure_line u]
                              | None => []
                              end) eps)
  /\ (forall e now_at page ydl eps0,
        has_requests e = true -> has_yt_dlp e = false ->
        scrape_episodes_from_html e now_at page = Ok eps0 -> eps0 <> [] ->
        fetch_episodes_online e now_at (HttpOk page) ydl = Err ModuleNotFoundError).
Proof.
  split.
  - intros e now_at resp ydl eps H. unfold fetch_episodes_online in H.
    destruct (has_requests e) eqn:Er; [|discriminate].
    destruct resp as [|page]; [discriminate|].
    destruct (scrape_episodes_from_html e now_at page) as [eps0|x] eqn:Es; [|discriminate].
    cbn [bind] in H.
    destruct (set_audio_urls_ok e ydl 0 eps0 eps H) as [Hf Hn].
    exists page, eps0. split; [reflexivity|].
    split; [exact (scrape_needs_bs4 _ _ _ _ Es)|].
    split; [reflexivity|]. split; [exact Es|]. split; [exact Hf|]. split.
    + rewrite <- (scrape_ids _ _ _ _ Es).
      apply (f_equal (map (fun f => snd f))) in Hf. rewrite !map_map in Hf. exact Hf.
    + eapply Forall_impl; [|exact Hn].
      intros ep Hep. exact (enclosure_of_nonempty ep Hep).
  - intros e now_at page ydl eps0 Hr Hy Hs N. unfold fetch_episodes_online.
    rewrite Hr, Hs. cbn [bind]. exact (set_audio_urls_no_yt_dlp e ydl 0 eps0 Hy N).
Qed.







(* ================================================================== *)
(** * Further properties of the script *)

(* ------------------------------------------------------------------ *)
(** ** Escaping *)

Lemma esc_char_not_markup (c : ascii) : all_chars not_markup (esc_char c) = true.
Proof.
  unfold esc_char.
  destruct (Ascii.eqb_spec c "&"%char); [reflexivity|].
  destruct (Ascii.eqb_spec c "<"%char); [reflexivity|].
  destruct (Ascii.eqb_spec c ">"%char); [reflexivity|].
  destruct (Ascii.eqb_spec c "034"%char); [reflexivity|].
  destruct (Ascii.eqb_spec c "'"%char); [reflexivity|].
  simpl. unfold not_markup.
  repeat match goal with
         | |- context [Ascii.eqb c ?d] => destruct (Ascii.eqb_spec c d); [congruence|]
         end.
  reflexivity.
Qed.

Lemma xml_unescape_esc_char (c : ascii) (x : string) :
  xml_unescape (esc_char c ++ x) = String c (xml_unescape x).
Proof. destruct c as [[] [] [] [] [] [] [] []]; reflexivity. Qed.

(** [xml_escape] never outputs [<], [>], the double quote or the
    apostrophe: its result can be placed in element content and in
    attribute values of either quoting style. *)
Theorem xml_escape_no_markup (s : string) :
  all_chars not_markup (xml_escape s) = true.
Proof.
  rewrite xml_escape_eq. induction s as [|c r IH]; [reflexivity|].
  simpl. rewrite all_chars_app, esc_char_not_markup, IH. reflexivity.
Qed.

(** Reading the output of [xml_escape] back with the five predefined
    XML entities gives the original text: escaping loses nothing. *)
Theorem xml_unescape_escape (s : string) : xml_unescape (xml_escape s) = s.
Proof.
  rewrite xml_escape_eq. induction s as [|c r IH]; [reflexivity|].
  simpl. rewrite xml_unescape_esc_char, IH. reflexivity.
Qed.


(* ------------------------------------------------------------------ *)
(** ** The calendar of [format_rfc822] *)

Lemma div_step (y k : Z) :
  0 < k -> y / k - (y - 1) / k = if y mod k =? 0 then 1 else 0.
Proof.
  intro Hk.
  pose proof (Z.div_mod (y - 1) k ltac:(lia)) as Hdm.
  pose proof (Z.mod_pos_bound (y - 1) k Hk) as Hr.
  set (q := (y - 1) / k) in *. set (r := (y - 1) mod k) in *.
  destruct (Z.eq_dec r (k - 1)) as [Er|Er].
  - assert (Hq : y / k = q + 1) by (symmetry; apply (Z.div_unique_pos y k (q + 1) 0); lia).
    assert (Hm : y mod k = 0) by (symmetry; apply (Z.mod_unique_pos y k (q + 1) 0); lia).
    rewrite Hq, Hm. simpl. lia.
  - assert (Hq : y / k = q) by (symmetry; apply (Z.div_unique_pos y k q (r + 1)); lia).
    assert (Hm : y mod k = r + 1) by (symmetry; apply (Z.mod_unique_pos y k q (r + 1)); lia).
    rewrite Hq, Hm. destruct (Z.eqb_spec (r + 1) 0); lia.
Qed.

Lemma mod_mul_zero (y a b : Z) : 0 < a -> 0 < b -> y mod (a * b) = 0 -> y mod a = 0.
Proof.
  intros Ha Hb H.
  apply Z.mod_divide in H; [|lia]. apply Z.mod_divide; [lia|].
  destruct H as [c Hc]. exists (c * b). rewrite Hc. ring.
Qed.

Lemma days_before_year_succ (y : Z) :
  days_before_year (y + 1) = days_before_year y + 365 + (if is_leap y then 1 else 0).
Proof.
  unfold days_before_year, is_leap.
  replace (y + 1 - 1) with y by lia.
  pose proof (div_step y 4 ltac:(lia)) as H4.
  pose proof (div_step y 100 ltac:(lia)) as H100.
  pose proof (div_step y 400 ltac:(lia)) as H400.
  pose proof (mod_mul_zero y 100 4 ltac:(lia) ltac:(lia)) as I100.
  pose proof (mod_mul_zero y 4 25 ltac:(lia) ltac:(lia)) as I4.
  simpl (100 * 4) in I100. simpl (4 * 25) in I4.
  destruct (Z.eqb_spec (y mod 4) 0), (Z.eqb_spec (y mod 100) 0), (Z.eqb_spec (y mod 400) 0);
    simpl; try lia; exfalso; auto.
Qed.

Lemma days_before_month_succ (y m : Z) :
  1 <= m <= 11 -> days_before_month y (m + 1) = days_before_month y m + days_in_month y m.
Proof.
  intro Hm.
  assert (m = 1 \/ m = 2 \/ m = 3 \/ m = 4 \/ m = 5 \/ m = 6 \/ m = 7 \/ m = 8
          \/ m = 9 \/ m = 10 \/ m = 11) as Hc by lia.
  repeat destruct Hc as [->|Hc]; subst; unfold days_before_month; simpl;
    destruct (is_leap y); reflexivity.
Qed.

Lemma days_before_december (y : Z) :
  days_before_month y 12 + 31 = 365 + (if is_leap y then 1 else 0).
Proof. unfold days_before_month. simpl. destruct (is_leap y); reflexivity. Qed.

Lemma toordinal_next_day (dt : datetime) :
  valid_date dt = true -> toordinal (next_day dt) = toordinal dt + 1.
Proof.
  unfold valid_date. intro H.
  repeat (apply Bool.andb_true_iff in H as [H ?]).
  repeat match goal with Hb : (_ <=? _) = true |- _ => apply Z.leb_le in Hb end.
  unfold next_day, toordinal.
  destruct (Z.ltb_spec (day dt) (days_in_month (year dt) (month dt))).
  - cbn [year month day]. lia.
  - assert (Hd : day dt = days_in_month (year dt) (month dt)) by lia.
    destruct (Z.ltb_spec (month dt) 12); cbn [year month day].
    + rewrite days_before_month_succ by lia. lia.
    + assert (Hm : month dt = 12) by lia. rewrite Hm in Hd. simpl in Hd.
      rewrite days_before_year_succ, Hm, Hd.
      pose proof (days_before_december (year dt)).
      assert (Hj : days_before_month (year dt + 1) 1 = 0) by reflexivity.
      rewrite Hj. destruct (is_leap (year dt)); lia.
Qed.

(** The ordinal that [format_rfc822] reads the weekday name from goes
    up by one from each valid calendar day to the next one, across month
    and year ends and leap days, so consecutive days get consecutive
    weekday names (Mon, Tue, ..., Sun, Mon). *)
Theorem next_day_weekday (dt : datetime) (H : valid_date dt = true) :
  toordinal (next_day dt) = toordinal dt + 1
  /\ weekday (next_day dt) = (weekday dt + 1) mod 7.
Proof.
  pose proof (toordinal_next_day dt H) as E. split; [exact E|].
  unfold weekday. rewrite E, Z.add_mod_idemp_l by discriminate.
  f_equal. ring.
Qed.

Lemma next_day_weekday_witness :
  valid_date (mk_dt 2028 2 28 12 0 0 0) = true
  /\ weekday (next_day (mk_dt 2028 2 28 12 0 0 0)) = (weekday (mk_dt 2028 2 28 12 0 0 0) + 1) mod 7
  /\ next_day (mk_dt 2028 2 28 12 0 0 0) = mk_dt 2028 2 29 12 0 0 0.
Proof.
  split; [reflexivity|]. split; [|reflexivity].
  apply (proj2 (next_day_weekday (mk_dt 2028 2 28 12 0 0 0) eq_refl)).
Defined.

Lemma str_length_app (a b : string) :
  String.length (a ++ b) = (String.length a + String.length b)%nat.
Proof. induction a as [|c a IH]; simpl; [reflexivity | now rewrite IH]. Qed.

Lemma z_str_four_digits (y : Z) : 1000 <= y <= 9999 -> String.length (z_str y) = 4%nat.
Proof.
  intro Hy.
  assert (Hall : forallb (fun n => Nat.eqb (String.length (z_str (1000 + Z.of_nat n))) 4)
                         (seq 0 (Z.to_nat 9000)) = true) by (vm_compute; reflexivity).
  rewrite forallb_forall in Hall. specialize (Hall (Z.to_nat (y - 1000))).
  rewrite in_seq in Hall.
  replace (1000 + Z.of_nat (Z.to_nat (y - 1000))) with y in Hall by lia.
  apply Nat.eqb_eq, Hall. lia.
Qed.

Lemma pad2_length (x : Z) : 0 <= x < 100 -> String.length (pad2 x) = 2%nat.
Proof. intro Hx. rewrite pad2_two_digits by exact Hx. reflexivity. Qed.

Lemma nth_three_letters (l : list string) (n : nat) :
  Forall (fun w => String.length w = 3%nat) l -> (n < length l)%nat ->
  String.length (nth n l EmptyString) = 3%nat.
Proof.
  intros Hl Hn. rewrite Forall_forall in Hl. apply Hl, nth_In, Hn.
Qed.

(** For every valid datetime with a four-digit year, [format_rfc822]
    writes exactly 31 characters, [Www, DD Mon YYYY HH:MM:SS +0000]:
    the weekday and month lookups always hit one of the three-letter
    names and every two-digit field is padded. *)
Theorem format_rfc822_length (dt : datetime)
  (Hv : valid_date dt = true) (Hy : 1000 <= year dt)
  (Hh : 0 <= hour dt <= 23) (Hmi : 0 <= minute dt <= 59) (Hs : 0 <= second dt <= 59) :
  String.length (format_rfc822 dt) = 31%nat.
Proof.
  unfold valid_date in Hv.
  repeat (apply Bool.andb_true_iff in Hv as [Hv ?]).
  repeat match goal with Hb : (_ <=? _) = true |- _ => apply Z.leb_le in Hb end.
  assert (Hdim : days_in_month (year dt) (month dt) <= 31).
  { assert (month dt = 1 \/ month dt = 2 \/ month dt = 3 \/ month dt = 4 \/ month dt = 5
            \/ month dt = 6 \/ month dt = 7 \/ month dt = 8 \/ month dt = 9
            \/ month dt = 10 \/ month dt = 11 \/ month dt = 12) as Hc by lia.
    repeat destruct Hc as [Hc|Hc]; rewrite Hc; unfold days_in_month;
      try destruct (is_leap (year dt)); lia. }
  unfold format_rfc822. rewrite !str_length_app.
  assert (Hw : 0 <= weekday dt < 7)
    by (unfold weekday; apply Z.mod_pos_bound; lia).
  rewrite (nth_three_letters _ (Z.to_nat (weekday dt)));
    [| repeat apply Forall_cons; try apply Forall_nil; reflexivity | cbn [length]; lia].
  rewrite (nth_three_letters _ (Z.to_nat (month dt - 1)));
    [| repeat apply Forall_cons; try apply Forall_nil; reflexivity | cbn [length]; lia].
  rewrite z_str_four_digits by lia.
  rewrite !pad2_length by lia.
  reflexivity.
Qed.

Lemma format_rfc822_length_witness :
  String.length (format_rfc822 (mk_dt 2026 2 11 12 0 0 0)) = 31%nat
  /\ format_rfc822 (mk_dt 2026 2 11 12 0 0 0) = "Wed, 11 Feb 2026 12:00:00 +0000".
Proof.
  split; [|vm_compute; reflexivity].
  apply format_rfc822_length; cbn; first [reflexivity | lia].
Defined.

(* ------------------------------------------------------------------ *)
(** ** The document [generate_rss] renders *)

(** [generate_rss] reads the clock for one line only: two renderings of
    the same records at different times have the same number of lines
    and the same lines everywhere except line 10 (counted from 0), the
    [<lastBuildDate>] line. *)
Theorem generate_rss_clock_only_build_date (now1 now2 : datetime) (eps : list episode) :
  length (generate_rss_lines now1 eps) = length (generate_rss_lines now2 eps)
  /\ (forall i, i <> 10%nat ->
        nth i (generate_rss_lines now1 eps) EmptyString
        = nth i (generate_rss_lines now2 eps) EmptyString)
  /\ nth 10 (generate_rss_lines now1 eps) EmptyString
     = "    <lastBuildDate>" ++ format_rfc822 now1 ++ "</lastBuildDate>".
Proof.
  rewrite !generate_rss_lines_eq. unfold channel_head.
  split; [reflexivity|]. split; [|reflexivity].
  intros i Hi.
  do 10 (destruct i as [|i]; [reflexivity|]).
  destruct i as [|i]; [lia|]. reflexivity.
Qed.

Lemma item_lines_length (ep : episode) :
  length (item_lines ep)
  = (9 + (if truthy (audio_url ep) then 1 else 0) + (if (0 <? duration ep)%Z then 1 else 0))%nat.
Proof.
  unfold item_lines. rewrite Z.gtb_ltb.
  destruct (audio_url ep) as [[|c u]|]; destruct (0 <? duration ep); simpl; reflexivity.
Qed.

Lemma length_flat_map_items (eps : list episode) :
  length (flat_map item_lines eps) = list_sum (map (fun ep => length (item_lines ep)) eps).
Proof.
  induction eps as [|ep eps IH]; [reflexivity|].
  cbn [flat_map map list_sum]. now rewrite length_app, IH.
Qed.

(** Each record's item block opens with [<item>], closes with
    [</item>] and has 9 lines, plus one for an enclosure when
    [audio_url] is truthy and one for the duration when it is positive;
    the whole document has the 27 header lines, these blocks and the 2
    closing lines. *)
Theorem generate_rss_line_count (now : datetime) (eps : list episode) :
  (forall ep, hd EmptyString (item_lines ep) = "    <item>"
              /\ last (item_lines ep) EmptyString = "    </item>"
              /\ length (item_lines ep)
                 = (9 + (if truthy (audio_url ep) then 1 else 0)
                    + (if (0 <? duration ep)%Z then 1 else 0))%nat)
  /\ length (generate_rss_lines now eps)
     = (29 + list_sum (map (fun ep => 9 + (if truthy (audio_url ep) then 1 else 0)
                                        + (if (0 <? duration ep)%Z then 1 else 0)) eps))%nat.
Proof.
  split.
  - intro ep. split; [reflexivity|]. split; [|apply item_lines_length].
    unfold item_lines. rewrite Z.gtb_ltb.
    destruct (audio_url ep) as [[|c u]|]; destruct (0 <? duration ep); reflexivity.
  - rewrite generate_rss_lines_eq, !length_app, length_flat_map_items.
    rewrite (map_ext _ _ item_lines_length). cbn [length channel_head channel_tail]. lia.
Qed.

(** The feed built from the fallback data has no [<enclosure>] line (no
    hardcoded record has an [audio_url]), and each of its 12 items has
    an [<itunes:duration>] line. *)
Theorem hardcoded_feed_no_enclosure (now : datetime) :
  lines_opening "      <enclosure" (generate_rss_lines now hardcoded_episodes) = []
  /\ length (lines_opening "      <itunes:duration>" (generate_rss_lines now hardcoded_episodes))
     = 12%nat.
Proof.
  rewrite generate_rss_lines_eq. unfold lines_opening. rewrite !filter_app.
  assert (E1 : filter (fun l => String.prefix "      <enclosure" l) (channel_head now) = [])
    by reflexivity.
  assert (E2 : filter (fun l => String.prefix "      <itunes:duration>" l) (channel_head now) = [])
    by reflexivity.
  rewrite E1, E2. vm_compute. split; reflexivity.
Qed.


(* ------------------------------------------------------------------ *)
(** ** Instances *)




Lemma episode_ids_per_anchor_witness :
  exists eps,
    scrape_episodes_from_html full_env (fun _ => mk_dt 2026 10 16 9 30 5 0)
      (mk_anchor (Some (of_ascii "/play/p8339/e" ++ [0x661; 0x662] ++ of_ascii "/panfletos")%list)
                 [of_ascii "A"] :: sample_soup)
    = Ok eps
    /\ map episode_id eps = [utf8_encode [0x661; 0x662]; "908229"; "907966"].
Proof.
  set (soup := mk_anchor (Some (of_ascii "/play/p8339/e" ++ [0x661; 0x662]
                                ++ of_ascii "/panfletos")%list)
                         [of_ascii "A"] :: sample_soup).
  assert (E : scrape_episodes_from_html full_env (fun _ => mk_dt 2026 10 16 9 30 5 0) soup
              = Ok (match scrape_episodes_from_html full_env
                            (fun _ => mk_dt 2026 10 16 9 30 5 0) soup with
                    | Ok l => l | Err _ => [] end))
    by (vm_compute; reflexivity).
  eexists. split; [exact E|].
  etransitivity; [exact ((proj2 episode_ids_per_anchor) _ _ _ _ E)|].
  vm_compute. reflexivity.
Defined.

Lemma parse_pt_date_result_shape_witness :
  parse_pt_date (mk_dt 2026 10 16 9 30 5 0) (of_ascii "1" ++ 0xA0 :: of_ascii "dez. 2025")%list
  = Ok (mk_dt 2025 12 1 12 0 0 0)
  /\ noon_date (mk_dt 2025 12 1 12 0 0 0) = true.
Proof.
  split; [vm_compute; reflexivity|].
  destruct (parse_pt_date_result_shape (mk_dt 2026 10 16 9 30 5 0)
              (of_ascii "1" ++ 0xA0 :: of_ascii "dez. 2025")%list
              (mk_dt 2025 12 1 12 0 0 0) ltac:(vm_compute; reflexivity)) as [E|E].
  - discriminate E.
  - exact E.
Defined.

Lemma parse_pt_date_tokens_witness :
  parse_pt_date (mk_dt 2026 10 16 9 30 5 0) (of_ascii "1.1 fev 2026.")
  = parse_pt_date (mk_dt 2026 10 16 9 30 5 0)
      (0x3000 :: of_ascii "11" ++ 0xA0 :: 0xA0 :: of_ascii "fev. 2026 ")%list
  /\ parse_pt_date (mk_dt 2026 10 16 9 30 5 0)
       (0x3000 :: of_ascii "11" ++ 0xA0 :: 0xA0 :: of_ascii "fev. 2026 ")%list
     = Ok (mk_dt 2026 2 11 12 0 0 0).
Proof.
  split.
  - apply parse_pt_date_tokens. vm_compute. reflexivity.
  - vm_compute. reflexivity.
Defined.

Lemma scrape_records_shape_witness :
  exists eps,
    scrape_episodes_from_html full_env (fun i => mk_dt 2026 10 16 9 30 (5 + Z.of_nat i) 0)
      sample_soup = Ok eps
    /\ length eps = 2%nat
    /\ Forall (scraped_record (fun i => mk_dt 2026 10 16 9 30 (5 + Z.of_nat i) 0)) eps.
Proof.
  assert (E : scrape_episodes_from_html full_env
                (fun i => mk_dt 2026 10 16 9 30 (5 + Z.of_nat i) 0) sample_soup
              = Ok (match scrape_episodes_from_html full_env
                            (fun i => mk_dt 2026 10 16 9 30 (5 + Z.of_nat i) 0) sample_soup with
                    | Ok l => l | Err _ => [] end))
    by (vm_compute; reflexivity).
  eexists. split; [exact E|]. split; [vm_compute; reflexivity|].
  exact (scrape_records_shape full_env _ sample_soup _ E).
Defined.

Lemma extract_audio_url_some_witness :
  extract_audio_url full_env (YdlInfo (Some (Some "https://x/a.mp3")))
  = Ok (Some "https://x/a.mp3")
  /\ extract_audio_url (mk_env true true false) (YdlInfo (Some (Some "https://x/a.mp3")))
     = Err ModuleNotFoundError.
Proof.
  split.
  - apply (proj2 ((proj1 extract_audio_url_some) full_env
                    (YdlInfo (Some (Some "https://x/a.mp3"))) "https://x/a.mp3")).
    repeat split. discriminate.
  - apply (proj2 extract_audio_url_some). reflexivity.
Defined.

Lemma fetch_episodes_online_records_witness :
  (exists eps,
     fetch_episodes_online full_env (fun _ => mk_dt 2026 10 16 9 30 5 0) (HttpOk sample_soup)
       (fun i _ => match i with O => YdlInfo (Some (Some "https://x/a.mp3")) | _ => YdlRaises end)
     = Ok eps
     /\ exists page eps0,
          scrape_episodes_from_html full_env (fun _ => mk_dt 2026 10 16 9 30 5 0) page = Ok eps0
          /\ map ep_fields eps = map ep_fields eps0
          /\ map episode_id eps = anchor_ids page)
  /\ fetch_episodes_online (mk_env true true false) (fun _ => mk_dt 2026 10 16 9 30 5 0)
       (HttpOk sample_soup) (fun _ _ => YdlRaises) = Err ModuleNotFoundError.
Proof.
  split.
  - assert (E : fetch_episodes_online full_env (fun _ => mk_dt 2026 10 16 9 30 5 0)
                  (HttpOk sample_soup)
                  (fun i _ => match i with
                              | O => YdlInfo (Some (Some "https://x/a.mp3"))
                              | _ => YdlRaises
                              end)
                = Ok (match fetch_episodes_online full_env (fun _ => mk_dt 2026 10 16 9 30 5 0)
                              (HttpOk sample_soup)
                              (fun i _ => match i with
                                          | O => YdlInfo (Some (Some "https://x/a.mp3"))
                                          | _ => YdlRaises
                                          end) with
                      | Ok l => l | Err _ => [] end))
      by (vm_compute; reflexivity).
    eexists. split; [exact E|].
    destruct ((proj1 fetch_episodes_online_records) _ _ _ _ _ E)
      as [page [eps0 [_ [_ [_ [Hs [Hf [Hid _]]]]]]]].
    exists page, eps0. split; [exact Hs|]. split; assumption.
  - apply ((proj2 fetch_episodes_online_records) _ _ _ _
             (match scrape_episodes_from_html (mk_env true true false)
                      (fun _ => mk_dt 2026 10 16 9 30 5 0) sample_soup with
              | Ok l => l | Err _ => [] end));
      vm_compute; first [reflexivity | discriminate].
Defined.


Lemma generate_rss_clock_only_build_date_witness :
  nth 11 (generate_rss_lines (mk_dt 2026 10 16 9 30 5 0) hardcoded_episodes) EmptyString
  = nth 11 (generate_rss_lines (mk_dt 2027 1 1 0 0 0 0) hardcoded_episodes) EmptyString.
Proof.
  apply (proj1 (proj2 (generate_rss_clock_only_build_date (mk_dt 2026 10 16 9 30 5 0)
                          (mk_dt 2027 1 1 0 0 0 0) hardcoded_episodes))).
  discriminate.
Defined.

(* ------------------------------------------------------------------ *)
(** ** Counterexamples *)




(** C4: a page that links the same episode twice (say from its picture
    and from its title) gives two records with the same episode id. *)
Lemma scrape_duplicate_ids :
  scrape_episodes_from_html full_env (fun _ => mk_dt 2026 10 16 9 30 5 0)
    [mk_anchor (Some (of_ascii "/play/p8339/e908229/panfletos")) [of_ascii "Cara de Espelho"];
     mk_anchor (Some (of_ascii "/play/p8339/e908229/panfletos"))
               [of_ascii "Cara de Espelho"; of_ascii "11 fev. 2026"; of_ascii "7min"]]
  = Ok [mk_ep "Cara de Espelho" (mk_dt 2026 10 16 9 30 5 0) 0
              "https://www.rtp.pt/play/p8339/e908229/panfletos" "908229" None;
        mk_ep "Cara de Espelho" (mk_dt 2026 2 11 12 0 0 0) 420
              "https://www.rtp.pt/play/p8339/e908229/panfletos" "908229" None]
  /\ ~ NoDup ["908229"; "908229"].
Proof.
  split; [vm_compute; reflexivity|].
  intro H. inversion H as [|x l Hx _]. apply Hx. now left.
Qed.

(** C6: [audio_url] set to the empty string is falsy, and the item gets
    no enclosure. *)
Lemma enclosure_empty_audio_url :
  lines_opening "      <enclosure"
    (item_lines (mk_ep "T" (mk_dt 2026 2 11 12 0 0 0) 420 (hc_url "908229") "908229"
                       (Some EmptyString))) = [].
Proof. vm_compute. reflexivity. Qed.
